(** * RAG100X: the chunk-size evaluation harness and the contextual
    chunk header comparator

    A shallow embedding of the two notebooks kept in
    [rag_techniques/04_chunksize_rag_eval.ipynb]:

    - the chunk-size evaluation notebook: question generation,
      [random.sample], [evaluate_response_time_and_accuracy] and the loop
      over [chunk_sizes];
    - the contextual-chunk-header notebook: [rerank_documents] and
      [compare_chunk_similarities].

    Python code that talks to a model, an index, the clock or the terminal
    is written in a state-and-exception monad.  A raised exception keeps
    the state reached so far, as in Python.  Every remote service is a
    field of a record of collaborators: an arbitrary function of its
    arguments and of the state of the outside world, which may answer or
    raise.  Python floats are modelled by the rationals they stand for, with
    the rounding of the float format after every arithmetic operation. *)

From Stdlib Require Import ZArith QArith Qround Lia Permutation.
From stdpp Require Import base list strings.

Local Open Scope Z_scope.

(** ** Exceptions and the monad *)

Inductive Exn : Type :=
| ValueError
| IndexError
| ZeroDivisionError
| ServiceError (msg : string).

Inductive result (A : Type) : Type :=
| Ok (a : A)
| Err (e : Exn).
Arguments Ok {A} a.
Arguments Err {A} e.

Definition M (S A : Type) : Type := S -> result A * S.

Definition ret {S A} (a : A) : M S A := fun s => (Ok a, s).

Definition bind {S A B} (m : M S A) (k : A -> M S B) : M S B :=
  fun s =>
    match m s with
    | (Ok a, s') => k a s'
    | (Err e, s') => (Err e, s')
    end.

Definition lift_result {S A} (r : result A) : M S A := fun s => (r, s).

Declare Scope monad_scope.
Delimit Scope monad_scope with monad.
Notation "x <- m ;; k" := (bind m (fun x => k))
  (at level 100, m at next level, right associativity) : monad_scope.
Notation "m ;;; k" := (bind m (fun _ => k))
  (at level 100, right associativity) : monad_scope.

(** ** Python list indexing

    [l[index]] and [l[index] = v] for a Python [int] index: an index in
    [[0, len)] addresses from the front, one in [[-len, 0)] from the back,
    and anything else raises [IndexError]. *)

Definition py_index {A} (l : list A) (index : Z) : option nat :=
  let n := Z.of_nat (length l) in
  if (0 <=? index) && (index <? n) then Some (Z.to_nat index)
  else if (- n <=? index) && (index <? 0) then Some (Z.to_nat (n + index))
  else None.

Definition list_getitem {A} (l : list A) (index : Z) : result A :=
  match py_index l index with
  | Some i => match l !! i with Some x => Ok x | None => Err IndexError end
  | None => Err IndexError
  end.

Definition list_setitem {A} (l : list A) (index : Z) (v : A) : result (list A) :=
  match py_index l index with
  | Some i => Ok (<[i := v]> l)
  | None => Err IndexError
  end.

Definition enumerate {A} (l : list A) : list (nat * A) :=
  zip (seq 0 (length l)) l.

(** [l[:stop]]: the first [stop] elements, or all but the last [-stop] of
    them when [stop] is negative. *)
Definition py_slice_to {A} (l : list A) (stop : Z) : list A :=
  if 0 <=? stop then take (Z.to_nat stop) l
  else take (Z.to_nat (Z.of_nat (length l) + stop)) l.

(** ** Python floats

    A float is modelled by the rational it stands for, and an arithmetic
    operation on floats by the exact operation followed by the rounding of
    the format.  Of the format only this is used: it holds 0 and 1, and
    rounding never reverses an order. *)
Record FloatFormat : Type := {
  fl_round : Q -> Q;
  fl_round_le : forall x y : Q, (x <= y)%Q -> (fl_round x <= fl_round y)%Q;
  fl_round_0 : (fl_round 0 == 0)%Q;
  fl_round_1 : (fl_round 1 == 1)%Q
}.

(** ** Contextual chunk headers: [rerank_documents] and
    [compare_chunk_similarities] *)

Module ContextualHeaders.

Local Open Scope monad_scope.

(** One entry of [reranked_results.results]. *)
Record RerankResult : Type := {
  index : Z;
  relevance_score : Q
}.

(** What the notebook prints; a score line carries the number that the
    format string renders. *)
Inductive Line : Type :=
| LineHeader (document_title : string)
| LineChunk (chunk_text : string)
| LineQuery (query : string)
| LineWithout (score : Q)
| LineWith (score : Q).

(** The Cohere client: [client.rerank(model, query, documents)]. *)
Record Services (W : Type) : Type := {
  client_rerank :
    string -> string -> list string -> W -> result (list RerankResult) * W
}.
Arguments client_rerank {W} _ _ _ _ _.

Record State (W : Type) : Type := {
  world : W;
  calls : list (string * list string);
  stdout : list Line
}.
Arguments world {W} _.
Arguments calls {W} _.
Arguments stdout {W} _.
Arguments Build_State {W} _ _ _.

Definition MODEL : string := "rerank-english-v3.0".

Section Comparator.

Context {W : Type} (sv : Services W).

Definition rerank (query : string) (documents : list string)
  : M (State W) (list RerankResult) :=
  fun s =>
    let (r, w') := client_rerank sv MODEL query documents (world s) in
    (r, {| world := w';
           calls := calls s ++ [(query, documents)];
           stdout := stdout s |}).

Definition print (l : Line) : M (State W) unit :=
  fun s =>
    (Ok tt, {| world := world s; calls := calls s; stdout := stdout s ++ [l] |}).

(** The loop
    [for i, index in enumerate(reranked_indices):
         similarity_scores[index] = reranked_similarity_scores[i]]. *)
Fixpoint reorder_scores (ixs : list (nat * Z)) (reranked_similarity_scores : list Q)
    (similarity_scores : list Q) : result (list Q) :=
  match ixs with
  | [] => Ok similarity_scores
  | (i, ix) :: rest =>
      match reranked_similarity_scores !! i with
      | None => Err IndexError
      | Some v =>
          match list_setitem similarity_scores ix v with
          | Err e => Err e
          | Ok similarity_scores' =>
              reorder_scores rest reranked_similarity_scores similarity_scores'
          end
      end
  end.

Definition rerank_documents (query : string) (chunks : list string)
  : M (State W) (list Q) :=
  results <- rerank query chunks ;;
  let reranked_indices := map index results in
  let reranked_similarity_scores := map relevance_score results in
  let similarity_scores := replicate (length chunks) 0%Q in
  lift_result
    (reorder_scores (enumerate reranked_indices) reranked_similarity_scores
       similarity_scores).

Definition newline : string := String (Ascii.ascii_of_nat 10) EmptyString.

(** [f"Document Title: {document_title}\n\n{chunk_text}"] *)
Definition chunk_w_header (document_title chunk_text : string) : string :=
  ("Document Title: " ++ document_title ++ newline ++ newline ++ chunk_text)%string.

Definition compare_chunk_similarities (chunk_index : Z) (chunks : list string)
    (document_title query : string) : M (State W) unit :=
  chunk_text <- lift_result (list_getitem chunks chunk_index) ;;
  let chunk_wo_header := chunk_text in
  similarity_scores <-
    rerank_documents query [chunk_wo_header; chunk_w_header document_title chunk_text] ;;
  print (LineHeader document_title) ;;;
  print (LineChunk chunk_text) ;;;
  print (LineQuery query) ;;;
  without <- lift_result (list_getitem similarity_scores 0) ;;
  print (LineWithout without) ;;;
  with_header <- lift_result (list_getitem similarity_scores 1) ;;
  print (LineWith with_header).

End Comparator.

(** A rigged client for the examples: it scores document [i] with [i + 1]
    tenths and answers in reverse order, keeping only the first [top_n]
    results. *)
Definition rigged_results (top_n : nat) (documents : list string) : list RerankResult :=
  take top_n
    (reverse (map (fun i => {| index := Z.of_nat i;
                               relevance_score := (Z.of_nat (i + 1) # 10)%Q |})
                  (seq 0 (length documents)))).

Definition rigged (top_n : nat) : Services nat := {|
  client_rerank := fun _ _ documents w => (Ok (rigged_results top_n documents), S w)
|}.

Definition start : State nat := {| world := O; calls := []; stdout := [] |}.

(** A client that numbers the documents from 1. *)
Definition one_based : Services nat := {|
  client_rerank := fun _ _ documents w =>
    (Ok (map (fun i => {| index := Z.of_nat (i + 1);
                          relevance_score := (Z.of_nat (i + 1) # 10)%Q |})
             (seq 0 (length documents))), S w)
|}.

(** A client that counts from the end: it reports the last document
    twice, then the document at index 1. *)
Definition counts_from_end : Services nat := {|
  client_rerank := fun _ _ _ w =>
    (Ok [ {| index := -1; relevance_score := (7 # 10)%Q |};
          {| index := -1; relevance_score := (3 # 10)%Q |};
          {| index := 1; relevance_score := (1 # 10)%Q |} ], S w)
|}.

(** A client that is out of reach. *)
Definition unreachable : Services nat := {|
  client_rerank := fun _ _ _ w => (Err (ServiceError "connection refused"), S w)
|}.

End ContextualHeaders.

(** ** Contextual chunk headers: the title of the document *)

Module DocumentTitle.

Local Open Scope monad_scope.

(** One entry of [chat_messages]. *)
Record Message : Type := {
  role : string;
  content : string
}.

(** The arguments of [client.chat.completions.create]. *)
Record Request : Type := {
  model : string;
  messages : list Message;
  max_tokens : Z;
  temperature : Q
}.

(** The tokenizer ([TOKEN_ENCODER.encode] and [.decode]), the making of
    the client ([OpenAI(api_key=...)], which raises when no key is to be
    had), the chat call, whose answer is
    [response.choices[0].message.content], and [str.strip]. *)
Record Services (W : Type) : Type := {
  token_encode : string -> list Z;
  token_decode : list Z -> string;
  openai_client : W -> result unit * W;
  chat_completions_create : Request -> W -> result string * W;
  str_strip : string -> string
}.
Arguments token_encode {W} _ _.
Arguments token_decode {W} _ _.
Arguments openai_client {W} _ _.
Arguments chat_completions_create {W} _ _ _.
Arguments str_strip {W} _ _.

Record State (W : Type) : Type := {
  world : W;
  requests : list Request
}.
Arguments world {W} _.
Arguments requests {W} _.
Arguments Build_State {W} _ _.

Definition MAX_CONTENT_TOKENS : Z := 4000.
Definition MODEL_NAME : string := "gpt-4o-mini".

Definition nl : string := String (Ascii.ascii_of_nat 10) EmptyString.

(** [DOCUMENT_TITLE_PROMPT.format(...)], the template being stripped. *)
Definition DOCUMENT_TITLE_PROMPT
    (document_title_guidance truncation_message document_text : string) : string :=
  ("INSTRUCTIONS" ++ nl ++
   "What is the title of the following document?" ++ nl ++ nl ++
   "Your response MUST be the title of the document, and nothing else. DO NOT respond with anything else."
   ++ nl ++ nl ++
   document_title_guidance ++ nl ++ nl ++
   truncation_message ++ nl ++ nl ++
   "DOCUMENT" ++ nl ++
   document_text)%string.

(** [TRUNCATION_MESSAGE.format(num_words=...)]; [num_words] is the decimal
    text of the number. *)
Definition TRUNCATION_MESSAGE (num_words : string) : string :=
  ("Also note that the document text provided below is just the first ~"
   ++ num_words ++
   " words of the document. That should be plenty for this task. Your response should still pertain to the entire document, not just the text provided below.")%string.

Section Title.

Context {W : Type} (sv : Services W).

Definition new_client : M (State W) unit :=
  fun s =>
    let (r, w') := openai_client sv (world s) in
    (r, {| world := w'; requests := requests s |}).

Definition create (request : Request) : M (State W) string :=
  fun s =>
    let (r, w') := chat_completions_create sv request (world s) in
    (r, {| world := w'; requests := requests s ++ [request] |}).

Definition make_llm_call (chat_messages : list Message) : M (State W) string :=
  new_client ;;;
  text <- create {| model := MODEL_NAME; messages := chat_messages;
                    max_tokens := MAX_CONTENT_TOKENS; temperature := (2 # 10)%Q |} ;;
  ret (str_strip sv text).

Definition truncate_content (content : string) (max_tokens : Z) : string * Z :=
  let tokens := token_encode sv content in
  let truncated_tokens := py_slice_to tokens max_tokens in
  (token_decode sv truncated_tokens, Z.min (Z.of_nat (length tokens)) max_tokens).

Definition get_document_title (document_text document_title_guidance : string)
  : M (State W) string :=
  let '(document_text, num_tokens) := truncate_content document_text MAX_CONTENT_TOKENS in
  let truncation_message :=
    if MAX_CONTENT_TOKENS <=? num_tokens then TRUNCATION_MESSAGE "3000" else ""%string in
  let prompt :=
    DOCUMENT_TITLE_PROMPT document_title_guidance truncation_message document_text in
  let chat_messages := [ {| role := "user"; content := prompt |} ] in
  make_llm_call chat_messages.

End Title.

(** Collaborators for the examples: one token for each character, a key
    that is there or not, and a model that answers with a fixed title
    between blanks, which [strip] removes. *)
Definition by_character : string -> list Z :=
  fun text => map (fun a => Z.of_nat (Ascii.nat_of_ascii a)) (String.list_ascii_of_string text).

Definition from_characters : list Z -> string :=
  fun tokens => String.string_of_list_ascii (map (fun t => Ascii.ascii_of_nat (Z.to_nat t)) tokens).

Definition titled (fails : bool) : Services nat := {|
  token_encode := by_character;
  token_decode := from_characters;
  openai_client := fun w => (Ok tt, w);
  chat_completions_create := fun _ w =>
    if fails then (Err (ServiceError "rate limited"), S w)
    else (Ok " Annual Report ", S w);
  str_strip := fun _ => "Annual Report"%string
|}.

Definition no_api_key : Services nat := {|
  token_encode := by_character;
  token_decode := from_characters;
  openai_client := fun w => (Err (ServiceError "no api key"), w);
  chat_completions_create := fun _ w => (Ok " Annual Report ", S w);
  str_strip := fun _ => "Annual Report"%string
|}.

Definition start : State nat := {| world := O; requests := [] |}.

(** A document of [n] letters. *)
Definition letters (n : nat) : string := String.string_of_list_ascii (replicate n (Ascii.ascii_of_nat 97)).

End DocumentTitle.

(** ** The chunk-size evaluation notebook *)

Module ChunkSizeEval.

Local Open Scope monad_scope.

Definition Document : Type := string.
Definition Question : Type := string.

Inductive LLM : Type :=
| llm_default
| gpt_4o
| gpt_35_turbo.

(** The global [Settings] object of LlamaIndex, as far as the notebook
    writes it. *)
Record Settings : Type := {
  llm : LLM;
  chunk_size : Z;
  chunk_overlap : Z
}.

(** An index remembers the documents and the chunking it was built with. *)
Record VectorStoreIndex : Type := {
  ix_documents : list Document;
  ix_chunk_size : Z;
  ix_chunk_overlap : Z
}.

Record QueryEngine : Type := {
  qe_index : VectorStoreIndex;
  qe_llm : LLM;
  similarity_top_k : Z
}.

Record Response : Type := {
  response : string;
  source_nodes : list string
}.

(** Calls to the collaborators, in the order they are issued. *)
Inductive Event : Type :=
| EvGenerateQuestions (model : LLM) (docs : list Document)
| EvBuildIndex (ix : VectorStoreIndex)
| EvQuery (qe : QueryEngine) (question : Question)
| EvFaithfulness (r : Response)
| EvRelevancy (question : Question) (r : Response).

(** The collaborators: question generation, embedding of an index, the
    query engine, the two judges, the wall clock and the bit source of the
    process-global random generator. *)
Record Services (W G : Type) : Type := {
  generate_questions_from_nodes :
    LLM -> list Document -> W -> result (list Question) * W;
  embed_documents : VectorStoreIndex -> W -> result unit * W;
  engine_query : QueryEngine -> Question -> W -> result Response * W;
  faithfulness_evaluate_response : Response -> W -> result bool * W;
  relevancy_evaluate_response : Question -> Response -> W -> result bool * W;
  time_time : W -> Q * W;
  random_bits : G -> nat * G;
  arithmetic : FloatFormat
}.
Arguments generate_questions_from_nodes {W G} _ _ _ _.
Arguments embed_documents {W G} _ _ _.
Arguments engine_query {W G} _ _ _ _.
Arguments faithfulness_evaluate_response {W G} _ _ _.
Arguments relevancy_evaluate_response {W G} _ _ _ _.
Arguments time_time {W G} _ _.
Arguments random_bits {W G} _ _.
Arguments arithmetic {W G} _.

(** The process: the shared [Settings], the state of the global random
    generator, the outside world and the trace of collaborator calls. *)
Record State (W G : Type) : Type := {
  settings : Settings;
  random_state : G;
  world : W;
  log : list Event
}.
Arguments settings {W G} _.
Arguments random_state {W G} _.
Arguments world {W G} _.
Arguments log {W G} _.
Arguments Build_State {W G} _ _ _ _.

Definition num_eval_questions : nat := 25.
Definition chunk_sizes : list Z := [128; 256].

Definition bool_to_Z (b : bool) : Z := if b then 1 else 0.

(** [total / num_questions], true division: the quotient rounded to the
    format, or [ZeroDivisionError]. *)
Definition py_div (fmt : FloatFormat) (total : Q) (n : nat) : result Q :=
  match n with
  | O => Err ZeroDivisionError
  | S _ => Ok (fl_round fmt (total / inject_Z (Z.of_nat n)))%Q
  end.

Section Notebook.

Context {W G : Type} (sv : Services W G).

Local Abbreviation St := (State W G).

(** A call to a collaborator is logged when it is issued and then changes
    the world, whether it answers or raises. *)
Definition call {A} (ev : Event) (f : W -> result A * W) : M St A :=
  fun s =>
    let (r, w') := f (world s) in
    (r, {| settings := settings s; random_state := random_state s;
           world := w'; log := log s ++ [ev] |}).

Definition now : M St Q :=
  fun s =>
    let (t, w') := time_time sv (world s) in
    (Ok t, {| settings := settings s; random_state := random_state s;
              world := w'; log := log s |}).

Definition get_settings : M St Settings := fun s => (Ok (settings s), s).

Definition set_settings (f : Settings -> Settings) : M St unit :=
  fun s =>
    (Ok tt, {| settings := f (settings s); random_state := random_state s;
               world := world s; log := log s |}).

Definition set_llm (m : LLM) (st : Settings) : Settings :=
  {| llm := m; chunk_size := chunk_size st; chunk_overlap := chunk_overlap st |}.
Definition set_chunk_size (c : Z) (st : Settings) : Settings :=
  {| llm := llm st; chunk_size := c; chunk_overlap := chunk_overlap st |}.
Definition set_chunk_overlap (c : Z) (st : Settings) : Settings :=
  {| llm := llm st; chunk_size := chunk_size st; chunk_overlap := c |}.

(** *** [random.sample]

    [_randbelow(n)] of the standard library: an integer in [[0, n)] taken
    from the generator, whose state advances.  The library rejects draws of
    random bits that fall outside the range; reduction modulo [n] stands
    for that here. *)
Definition randbelow (n : nat) (g : G) : nat * G :=
  let (r, g') := random_bits sv g in (r mod n, g')%nat.

(** The selection loop of [random.sample] over a copy of the population:
    [j = randbelow(n - i); result[i] = pool[j]; pool[j] = pool[n - i - 1]],
    where [m] is [n - i].  (For a population much larger than the sample
    the library remembers the positions already taken in a set instead of
    copying the population; it returns [k] elements at distinct positions
    either way.) *)
Fixpoint sample_loop {A} (pool : list A) (m k : nat) (g : G) : result (list A) * G :=
  match k with
  | O => (Ok [], g)
  | S k' =>
      let (j, g') := randbelow m g in
      match pool !! j, pool !! (m - 1)%nat with
      | Some x, Some last =>
          let (r, g'') := sample_loop (<[j := last]> pool) (m - 1) k' g' in
          (match r with Ok l => Ok (x :: l) | Err e => Err e end, g'')
      | _, _ => (Err IndexError, g')
      end
  end.

(** [random.sample(population, k)] on the module-level generator: it raises
    [ValueError] when the sample is larger than the population. *)
Definition random_sample {A} (population : list A) (k : nat) : M St (list A) :=
  fun s =>
    let n := length population in
    if (n <? k)%nat then (Err ValueError, s)
    else
      let (r, g') := sample_loop population n k (random_state s) in
      (r, {| settings := settings s; random_state := g';
             world := world s; log := log s |}).

(** *** The evaluation of one chunk size *)

(** [VectorStoreIndex.from_documents(eval_documents)] chunks with the
    [Settings] in force at the call. *)
Definition from_documents (docs : list Document) : M St VectorStoreIndex :=
  st <- get_settings ;;
  let ix := {| ix_documents := docs;
               ix_chunk_size := chunk_size st;
               ix_chunk_overlap := chunk_overlap st |} in
  call (EvBuildIndex ix) (embed_documents sv ix) ;;;
  ret ix.

Definition as_query_engine (ix : VectorStoreIndex) (top_k : Z) : M St QueryEngine :=
  st <- get_settings ;;
  ret {| qe_index := ix; qe_llm := llm st; similarity_top_k := top_k |}.

(** The body of the loop up to the three measurements of one question. *)
Definition eval_question (query_engine : QueryEngine) (question : Question)
  : M St (Q * bool * bool) :=
  start_time <- now ;;
  response_vector <-
    call (EvQuery query_engine question) (engine_query sv query_engine question) ;;
  end_time <- now ;;
  let elapsed_time := fl_round (arithmetic sv) (end_time - start_time)%Q in
  faithfulness_result <-
    call (EvFaithfulness response_vector)
         (faithfulness_evaluate_response sv response_vector) ;;
  relevancy_result <-
    call (EvRelevancy question response_vector)
         (relevancy_evaluate_response sv question response_vector) ;;
  ret (elapsed_time, faithfulness_result, relevancy_result).

(** [for question in eval_questions: ...] with the three running totals. *)
Fixpoint question_loop (query_engine : QueryEngine) (eval_questions : list Question)
    (totals : Q * Z * Z) : M St (Q * Z * Z) :=
  match eval_questions with
  | [] => ret totals
  | question :: rest =>
      m <- eval_question query_engine question ;;
      let '(elapsed_time, faithfulness_result, relevancy_result) := m in
      let '(total_response_time, total_faithfulness, total_relevancy) := totals in
      question_loop query_engine rest
        (fl_round (arithmetic sv) (total_response_time + elapsed_time)%Q,
         total_faithfulness + bool_to_Z faithfulness_result,
         total_relevancy + bool_to_Z relevancy_result)
  end.

(** The part of the function that sets the variant up. *)
Definition build_query_engine (eval_documents : list Document) (chunk_size : Z)
  : M St QueryEngine :=
  let llm := gpt_35_turbo in
  set_settings (set_llm llm) ;;;
  set_settings (set_chunk_size chunk_size) ;;;
  set_settings (set_chunk_overlap (chunk_size / 5)) ;;;
  vector_index <- from_documents eval_documents ;;
  as_query_engine vector_index 5.

(** [eval_documents] is the notebook's global of that name. *)
Definition evaluate_response_time_and_accuracy (eval_documents : list Document)
    (chunk_size : Z) (eval_questions : list Question) : M St (Q * Q * Q) :=
  query_engine <- build_query_engine eval_documents chunk_size ;;
  let num_questions := length eval_questions in
  totals <- question_loop query_engine eval_questions (0%Q, 0, 0) ;;
  let '(total_response_time, total_faithfulness, total_relevancy) := totals in
  average_response_time <-
    lift_result (py_div (arithmetic sv) total_response_time num_questions) ;;
  average_faithfulness <-
    lift_result (py_div (arithmetic sv) (inject_Z total_faithfulness) num_questions) ;;
  average_relevancy <-
    lift_result (py_div (arithmetic sv) (inject_Z total_relevancy) num_questions) ;;
  ret (average_response_time, average_faithfulness, average_relevancy).

(** *** The cells of the notebook *)

(** The question cell: the first 20 documents, the generated questions and
    the sample of [num_eval_questions] of them. *)
Definition generate_benchmark (documents : list Document)
  : M St (list Document * list Question) :=
  let eval_documents := take 20 documents in
  st <- get_settings ;;
  eval_questions <-
    call (EvGenerateQuestions (llm st) eval_documents)
         (generate_questions_from_nodes sv (llm st) eval_documents) ;;
  k_eval_questions <- random_sample eval_questions num_eval_questions ;;
  ret (eval_documents, k_eval_questions).

(** [for chunk_size in chunk_sizes: ...]; a row stands for the printed line. *)
Fixpoint chunk_size_loop (eval_documents : list Document) (sizes : list Z)
    (k_eval_questions : list Question) : M St (list (Z * (Q * Q * Q))) :=
  match sizes with
  | [] => ret []
  | chunk_size :: rest =>
      row <- evaluate_response_time_and_accuracy eval_documents chunk_size
               k_eval_questions ;;
      rows <- chunk_size_loop eval_documents rest k_eval_questions ;;
      ret ((chunk_size, row) :: rows)
  end.

Definition notebook (documents : list Document) : M St (list (Z * (Q * Q * Q))) :=
  benchmark <- generate_benchmark documents ;;
  let '(eval_documents, k_eval_questions) := benchmark in
  set_settings (set_llm gpt_4o) ;;;
  chunk_size_loop eval_documents chunk_sizes k_eval_questions.

(** *** Views of a run used by the statements *)

(** The measurements of all questions, one after the other. *)
Fixpoint measure_all (query_engine : QueryEngine) (eval_questions : list Question)
  : M St (list (Q * bool * bool)) :=
  match eval_questions with
  | [] => ret []
  | question :: rest =>
      m <- eval_question query_engine question ;;
      ms <- measure_all query_engine rest ;;
      ret (m :: ms)
  end.

End Notebook.

Definition elapsed_of (m : Q * bool * bool) : Q := fst (fst m).
Definition faithful_of (m : Q * bool * bool) : bool := snd (fst m).
Definition relevant_of (m : Q * bool * bool) : bool := snd m.

(** [total += x] for each [x] of [l] in turn, every sum rounded. *)
Definition accumulate (fmt : FloatFormat) (total : Q) (l : list Q) : Q :=
  fold_left (fun t x => fl_round fmt (t + x)%Q) l total.

Definition passing (l : list bool) : Z := Z.of_nat (length (filter (fun b => b = true) l)).

(** The indexes whose construction a trace asks for. *)
Definition built (l : list Event) : list VectorStoreIndex :=
  omap (fun ev => match ev with EvBuildIndex ix => Some ix | _ => None end) l.

(** The questions a trace sends to a query engine, with the chunk size of
    the index behind the engine. *)
Definition queried (l : list Event) : list (Z * Question) :=
  omap (fun ev => match ev with
                  | EvQuery qe q => Some (ix_chunk_size (qe_index qe), q)
                  | _ => None
                  end) l.

Definition judged_faithfulness (l : list Event) : list Response :=
  omap (fun ev => match ev with EvFaithfulness r => Some r | _ => None end) l.

Definition judged_relevancy (l : list Event) : list (Question * Response) :=
  omap (fun ev => match ev with EvRelevancy q r => Some (q, r) | _ => None end) l.

(** [kept s s' qs]: the run from [s] to [s'] kept the settings and the
    random generator, built no index and sent the questions [qs]. *)
Definition kept {W G} (s s' : State W G) (qs : list (Z * Question)) : Prop :=
  settings s' = settings s /\
  random_state s' = random_state s /\
  built (log s') = built (log s) /\
  queried (log s') = queried (log s) ++ qs.

(** [measured_in_turn sv qe qs w ms resps w']: starting in the world [w],
    for each question in turn the clock is read, the engine answers the
    question, the clock is read again, the faithfulness judge is given that
    answer and the relevancy judge the question and that answer; every call
    sees the world that the call before it left.  [resps] are the answers
    of the engine, [ms] the measurements and [w'] the world at the end. *)
Inductive measured_in_turn {W G} (sv : Services W G) (qe : QueryEngine)
  : list Question -> W -> list (Q * bool * bool) -> list Response -> W -> Prop :=
| measured_none (w : W) : measured_in_turn sv qe [] w [] [] w
| measured_next (q : Question) (qs : list Question) (w : W)
    (t0 : Q) (w0 : W) (resp : Response) (w1 : W) (t1 : Q) (w2 : W)
    (f : bool) (w3 : W) (r : bool) (w4 : W)
    (ms : list (Q * bool * bool)) (resps : list Response) (w' : W) :
    time_time sv w = (t0, w0) ->
    engine_query sv qe q w0 = (Ok resp, w1) ->
    time_time sv w1 = (t1, w2) ->
    faithfulness_evaluate_response sv resp w2 = (Ok f, w3) ->
    relevancy_evaluate_response sv q resp w3 = (Ok r, w4) ->
    measured_in_turn sv qe qs w4 ms resps w' ->
    measured_in_turn sv qe (q :: qs) w
      ((fl_round (arithmetic sv) (t1 - t0)%Q, f, r) :: ms) (resp :: resps) w'.

(** One step of the running totals. *)
Definition add_measurement (fmt : FloatFormat) (totals : Q * Z * Z)
    (m : Q * bool * bool) : Q * Z * Z :=
  let '(elapsed_time, faithfulness_result, relevancy_result) := m in
  let '(total_response_time, total_faithfulness, total_relevancy) := totals in
  (fl_round fmt (total_response_time + elapsed_time)%Q,
   total_faithfulness + bool_to_Z faithfulness_result,
   total_relevancy + bool_to_Z relevancy_result).

(** What setting up the variant with chunk size [c] writes and asks for. *)
Definition variant_settings (c : Z) : Settings :=
  {| llm := gpt_35_turbo; chunk_size := c; chunk_overlap := c / 5 |}.

Definition variant_index (docs : list Document) (c : Z) : VectorStoreIndex :=
  {| ix_documents := docs; ix_chunk_size := c; ix_chunk_overlap := c / 5 |}.

(** *** Collaborators for the examples

    Two formats: one that holds every rational, so that nothing is rounded,
    and one that holds the multiples of one eighth and rounds down to
    them. *)
Definition exact : FloatFormat := {|
  fl_round := fun x => x;
  fl_round_le := fun x y H => H;
  fl_round_0 := Qeq_refl 0;
  fl_round_1 := Qeq_refl 1
|}.

Definition eighths : FloatFormat := {|
  fl_round := fun x => (Qfloor (x * 8) # 8)%Q;
  fl_round_le := fun x y H =>
    ltac:(unfold Qle; cbn [Qnum Qden];
          assert (Hf : (Qfloor (x * 8) <= Qfloor (y * 8))%Z)
            by (apply Qfloor_resp_le, Qmult_le_compat_r; [exact H | discriminate]);
          lia);
  fl_round_0 := ltac:(reflexivity);
  fl_round_1 := ltac:(reflexivity)
|}.

(** The world is a counter of ticks, which the clock reads.  Question
    generation writes [per_doc] questions for each document; a query takes
    as many ticks as the question has characters and raises for the
    questions [bad_query] selects; the faithfulness judge raises for the
    answers [bad_judge] selects.  The random generator is a linear
    congruential one. *)
Definition stub_questions (per_doc : nat) (docs : list Document) : list Question :=
  flat_map (fun d =>
              map (fun i => (d ++ String (Ascii.ascii_of_nat (48 + i)) "?")%string)
                  (seq 0 per_doc)) docs.

Definition stub_in (fmt : FloatFormat) (per_doc : nat)
    (bad_query bad_judge : string -> bool) : Services nat N := {|
  generate_questions_from_nodes := fun _ docs w =>
    (Ok (stub_questions per_doc docs), S w);
  embed_documents := fun _ w => (Ok tt, S w);
  engine_query := fun _ q w =>
    if bad_query q then (Err (ServiceError "query timed out"), S w)
    else (Ok {| response := q; source_nodes := [q] |}, (w + String.length q)%nat);
  faithfulness_evaluate_response := fun r w =>
    if bad_judge (response r) then (Err (ServiceError "judge timed out"), S w)
    else (Ok (Nat.even w), S w);
  relevancy_evaluate_response := fun _ _ w => (Ok (w mod 3 =? 0)%nat, S w);
  time_time := fun w => (inject_Z (Z.of_nat w), S w);
  random_bits := fun g =>
    (N.to_nat ((g / 65536) mod 1024), (g * 1103515245 + 12345) mod 2147483648)%N;
  arithmetic := fmt
|}.

Definition stub : nat -> (string -> bool) -> (string -> bool) -> Services nat N :=
  stub_in exact.

Definition never (_ : string) : bool := false.

Definition times_out_on (q : string) : string -> bool := String.eqb q.

Definition three_questions : list Question := ["A0?"; "B0?"; "C0?"].

Definition corpus : list Document :=
  map (fun i => String (Ascii.ascii_of_nat (65 + i)) EmptyString) (seq 0 22).

Definition start (generator : N) : State nat N := {|
  settings := {| llm := llm_default; chunk_size := 1024; chunk_overlap := 200 |};
  random_state := generator;
  world := O;
  log := []
|}.

(** Runs used as examples: all services answer; the query for ["B0?"]
    times out; the faithfulness judge times out on the answer to ["B0?"];
    question generation writes one question for each document only. *)
Definition honest : Services nat N := stub 2 never never.
Definition judge_fails : Services nat N := stub 2 never (times_out_on "B0?").
Definition terse : Services nat N := stub 1 never never.

(** All services answer and floats are multiples of one eighth; the query
    for the last of the three questions times out. *)
Definition rounded : Services nat N := stub_in eighths 2 never never.
Definition last_query_fails : Services nat N := stub 2 (times_out_on "C0?") never.

(** The embedding service is down; the question generator is down. *)
Definition index_fails : Services nat N := {|
  generate_questions_from_nodes := generate_questions_from_nodes honest;
  embed_documents := fun _ w => (Err (ServiceError "embedding failed"), S w);
  engine_query := engine_query honest;
  faithfulness_evaluate_response := faithfulness_evaluate_response honest;
  relevancy_evaluate_response := relevancy_evaluate_response honest;
  time_time := time_time honest;
  random_bits := random_bits honest;
  arithmetic := arithmetic honest
|}.

Definition generation_fails : Services nat N := {|
  generate_questions_from_nodes := fun _ _ w =>
    (Err (ServiceError "generation failed"), S w);
  embed_documents := embed_documents honest;
  engine_query := engine_query honest;
  faithfulness_evaluate_response := faithfulness_evaluate_response honest;
  relevancy_evaluate_response := relevancy_evaluate_response honest;
  time_time := time_time honest;
  random_bits := random_bits honest;
  arithmetic := arithmetic honest
|}.

Definition example_notebook : result (list (Z * (Q * Q * Q))) * State nat N :=
  notebook honest corpus (start 7).

Definition example_rows : list (Z * (Q * Q * Q)) :=
  match fst example_notebook with Ok rows => rows | Err _ => [] end.

Definition example_engine : QueryEngine :=
  {| qe_index := variant_index (take 20 corpus) 128; qe_llm := gpt_35_turbo;
     similarity_top_k := 5 |}.

Definition example_answer (q : Question) : Response :=
  {| response := q; source_nodes := [q] |}.

Definition example_questions : list Question :=
  match fst (generate_benchmark honest corpus (start 7)) with
  | Ok (_, k_eval_questions) => k_eval_questions
  | Err _ => []
  end.

Definition example_evaluation : result (Q * Q * Q) * State nat N :=
  evaluate_response_time_and_accuracy honest (take 20 corpus) 128 three_questions
    (start 7).

End ChunkSizeEval.

(** * Properties of the contextual-header comparator *)

Section ComparatorProperties.

Import ContextualHeaders.

Context {W : Type} (sv : Services W).

Lemma py_index_front {A} (l : list A) (ix : Z) :
  0 <= ix < Z.of_nat (length l) -> py_index l ix = Some (Z.to_nat ix).
Proof.
  intros [H0 H1]. unfold py_index.
  apply Z.leb_le in H0. apply Z.ltb_lt in H1.
  by rewrite H0, H1.
Qed.

Lemma list_setitem_front {A} (l : list A) (ix : Z) (v : A) :
  0 <= ix < Z.of_nat (length l) ->
  list_setitem l ix v = Ok (<[Z.to_nat ix := v]> l).
Proof. intros H. unfold list_setitem. by rewrite py_index_front. Qed.

(** The reordering loop, started anywhere in the enumeration. *)
Lemma reorder_scores_spec (rs : list RerankResult) :
  forall (k : nat) (scores sim : list Q),
    (forall j r, rs !! j = Some r -> scores !! (k + j)%nat = Some (relevance_score r)) ->
    Forall (fun r => 0 <= index r < Z.of_nat (length sim)) rs ->
    exists out,
      reorder_scores (zip (seq k (length rs)) (map index rs)) scores sim = Ok out /\
      length out = length sim /\
      (forall i : nat, ~ In (Z.of_nat i) (map index rs) -> out !! i = sim !! i) /\
      (NoDup (map index rs) ->
       forall r, In r rs -> out !! Z.to_nat (index r) = Some (relevance_score r)).
Proof.
  induction rs as [|r rs' IH]; intros k scores sim Hsc Hrange.
  - exists sim. repeat split; try done.
  - apply Forall_cons in Hrange as [Hr Hrange]. cbn [length seq map zip zip_with].
    cbn [reorder_scores].
    specialize (Hsc 0%nat r eq_refl) as Hk. rewrite Nat.add_0_r in Hk. rewrite Hk.
    rewrite list_setitem_front by done.
    destruct (IH (S k) scores (<[Z.to_nat (index r) := relevance_score r]> sim))
      as (out & Hrun & Hlen & Habs & Hpres).
    + intros j r' Hj. replace (S k + j)%nat with (k + S j)%nat by lia. by apply Hsc.
    + rewrite length_insert. done.
    + exists out. rewrite length_insert in Hlen. split; [done|]. split; [done|]. split.
      * intros i Hi. rewrite Habs by (intros Hin; apply Hi; by right).
        apply list_lookup_insert_ne. intros Heq. apply Hi. left. lia.
      * intros Hnd r0 Hin. apply NoDup_cons in Hnd as [Hfresh Hnd].
        destruct Hin as [<- | Hin]; [|by apply Hpres].
        rewrite Habs.
        -- apply list_lookup_insert_eq. lia.
        -- rewrite Z2Nat.id by lia. intros Hin. apply Hfresh.
           by apply list_elem_of_In.
Qed.

Lemma rerank_documents_spec (query : string) (chunks : list string)
    (s : State W) (rs : list RerankResult) (w' : W) :
  client_rerank sv MODEL query chunks (world s) = (Ok rs, w') ->
  Forall (fun r => 0 <= index r < Z.of_nat (length chunks)) rs ->
  exists scores,
    rerank_documents sv query chunks s =
      (Ok scores, {| world := w'; calls := calls s ++ [(query, chunks)];
                     stdout := stdout s |}) /\
    length scores = length chunks /\
    (forall i : nat, (i < length chunks)%nat -> ~ In (Z.of_nat i) (map index rs) ->
                     scores !! i = Some 0%Q) /\
    (NoDup (map index rs) ->
     forall r, In r rs -> scores !! Z.to_nat (index r) = Some (relevance_score r)).
Proof.
  intros Hcall Hrange.
  destruct (reorder_scores_spec rs 0 (map relevance_score rs)
              (replicate (length chunks) 0%Q)) as (out & Hrun & Hlen & Habs & Hpres).
  - intros j r Hj. cbn. change (map relevance_score rs) with (relevance_score <$> rs).
    by rewrite list_lookup_fmap, Hj.
  - by rewrite length_replicate.
  - exists out. rewrite length_replicate in Hlen. split; [|split; [done|split; [|done]]].
    + unfold rerank_documents, bind, rerank, lift_result, enumerate.
      rewrite Hcall. rewrite length_map. by rewrite Hrun.
    + intros i Hi Hnot. rewrite Habs by done. by apply lookup_replicate_2.
Qed.

(** C10: when the reranker answers with results for only some of the input
    indices, in any order, [rerank_documents] does not raise: it returns one
    score per input chunk, [0] at every index absent from the results and,
    when no index is repeated, the reported score at every index present. *)
Theorem rerank_documents_partial_results (query : string) (chunks : list string)
    (s : State W) (rs : list RerankResult) (w' : W) :
  chunks <> [] ->
  client_rerank sv MODEL query chunks (world s) = (Ok rs, w') ->
  Forall (fun r => 0 <= index r < Z.of_nat (length chunks)) rs ->
  exists scores s',
    rerank_documents sv query chunks s = (Ok scores, s') /\
    length scores = length chunks /\
    (forall i : nat, (i < length chunks)%nat -> ~ In (Z.of_nat i) (map index rs) ->
                     scores !! i = Some 0%Q) /\
    (NoDup (map index rs) ->
     forall r, In r rs -> scores !! Z.to_nat (index r) = Some (relevance_score r)).
Proof.
  intros _ Hcall Hrange.
  destruct (rerank_documents_spec query chunks s rs w' Hcall Hrange)
    as (scores & Hrun & Hrest).
  eauto.
Qed.

(** C5 (as the code has it): the comparator hands the reranker, in one
    call to the model rerank-english-v3.0, the raw chunk and then the chunk
    behind the line "Document Title: " with the title and an empty line.  It
    returns nothing; it prints the score of the raw chunk as "without
    header" and then the score of the prefixed chunk as "with header", in
    whatever order the reranker lists its two results. *)
Theorem compare_keeps_input_order (chunk_index : Z) (chunks : list string)
    (document_title query : string) (s : State W) (chunk_text : string)
    (rs : list RerankResult) (w' : W) (a b : Q) :
  list_getitem chunks chunk_index = Ok chunk_text ->
  let line_feed := Ascii.ascii_of_nat 10 in
  let with_header :=
    ("Document Title: " ++ document_title
       ++ String line_feed (String line_feed chunk_text))%string in
  client_rerank sv "rerank-english-v3.0" query [chunk_text; with_header] (world s)
    = (Ok rs, w') ->
  Permutation rs [ {| index := 0; relevance_score := a |};
                   {| index := 1; relevance_score := b |} ] ->
  exists s',
    compare_chunk_similarities sv chunk_index chunks document_title query s = (Ok tt, s') /\
    calls s' = calls s ++ [(query, [chunk_text; with_header])] /\
    stdout s' =
      stdout s ++ [LineHeader document_title; LineChunk chunk_text; LineQuery query;
                   LineWithout a; LineWith b].
Proof.
  intros Hget line_feed with_header Hcall Hperm.
  change with_header with (chunk_w_header document_title chunk_text) in *.
  change "rerank-english-v3.0"%string with MODEL in Hcall.
  assert (Hrange : Forall (fun r => 0 <= index r < 2) rs).
  { eapply Permutation_Forall; [symmetry; exact Hperm|].
    repeat constructor; simpl; lia. }
  assert (Hnd : NoDup (map index rs)).
  { rewrite (Permutation_map index Hperm).
    cbn. apply NoDup_cons; split; [|apply NoDup_singleton].
    intros Hin. apply list_elem_of_singleton in Hin. discriminate. }
  destruct (rerank_documents_spec query _ s rs w' Hcall Hrange)
    as (scores & Hrun & Hlen & _ & Hpres).
  specialize (Hpres Hnd).
  assert (Ha : scores !! 0%nat = Some a).
  { apply (Hpres {| index := 0; relevance_score := a |}).
    eapply Permutation_in; [symmetry; exact Hperm|]. by left. }
  assert (Hb : scores !! 1%nat = Some b).
  { apply (Hpres {| index := 1; relevance_score := b |}).
    eapply Permutation_in; [symmetry; exact Hperm|]. right. by left. }
  destruct scores as [|x [|y [|z scores]]]; try discriminate.
  cbn in Ha, Hb. injection Ha as ->. injection Hb as ->.
  eexists. unfold compare_chunk_similarities, bind at 1, lift_result at 1.
  rewrite Hget. unfold bind at 1. rewrite Hrun.
  unfold bind, print, lift_result.
  change (list_getitem [a; b] 0) with (Ok a).
  change (list_getitem [a; b] 1) with (Ok b).
  cbn. rewrite <- !app_assoc. done.
Qed.

End ComparatorProperties.

Lemma rerank_documents_partial_results_witness :
  exists scores s',
    ContextualHeaders.rerank_documents (ContextualHeaders.rigged 2) "climate"
      ["a"; "b"; "c"] ContextualHeaders.start = (Ok scores, s') /\
    length scores = 3%nat /\
    scores = [0%Q; (2 # 10)%Q; (3 # 10)%Q].
Proof.
  destruct (rerank_documents_partial_results (ContextualHeaders.rigged 2) "climate"
              ["a"; "b"; "c"] ContextualHeaders.start
              (ContextualHeaders.rigged_results 2 ["a"; "b"; "c"]) 1%nat)
    as (scores & s' & Hrun & Hlen & _ & _).
  - discriminate.
  - reflexivity.
  - repeat constructor; simpl; lia.
  - exists scores, s'. split; [exact Hrun|]. split; [exact Hlen|].
    vm_compute in Hrun. congruence.
Defined.

Lemma compare_keeps_input_order_witness :
  exists s',
    ContextualHeaders.compare_chunk_similarities (ContextualHeaders.rigged 2) 1
      ["intro"; "emissions"] "Annual Report" "climate" ContextualHeaders.start
    = (Ok tt, s') /\
    ContextualHeaders.calls s' =
      [("climate"%string,
        ["emissions"%string;
         String.append "Document Title: Annual Report"
           (String (Ascii.ascii_of_nat 10) (String (Ascii.ascii_of_nat 10) "emissions"))])] /\
    ContextualHeaders.stdout s' =
      [ContextualHeaders.LineHeader "Annual Report";
       ContextualHeaders.LineChunk "emissions";
       ContextualHeaders.LineQuery "climate";
       ContextualHeaders.LineWithout (1 # 10)%Q;
       ContextualHeaders.LineWith (2 # 10)%Q].
Proof.
  destruct (compare_keeps_input_order (ContextualHeaders.rigged 2) 1
              ["intro"; "emissions"] "Annual Report" "climate"
              ContextualHeaders.start "emissions"
              (ContextualHeaders.rigged_results 2
                 ["emissions";
                  ContextualHeaders.chunk_w_header "Annual Report" "emissions"])
              1%nat (1 # 10)%Q (2 # 10)%Q)
    as (s' & Hrun & Hcalls & Hout).
  - reflexivity.
  - reflexivity.
  - apply perm_swap.
  - exists s'. split; [exact Hrun|]. split; [exact Hcalls | exact Hout].
Defined.

(** * Properties of the chunk-size evaluation *)

Section NotebookProperties.

Import ChunkSizeEval.

Context {W G : Type} (sv : Services W G).

Local Abbreviation St := (State W G).

Lemma kept_refl (s : St) : kept s s [].
Proof. unfold kept. by rewrite app_nil_r. Qed.

Lemma kept_trans (s s' s'' : St) (a b : list (Z * Question)) :
  kept s s' a -> kept s' s'' b -> kept s s'' (a ++ b).
Proof.
  intros (H1 & H2 & H3 & H4) (K1 & K2 & K3 & K4). unfold kept.
  rewrite K1, K2, K3, K4, H4, app_assoc. done.
Qed.

Ltac run_services :=
  repeat match goal with
         | |- context [time_time ?a ?b] => destruct (time_time a b)
         | |- context [engine_query ?a ?b ?c ?d] =>
             destruct (engine_query a b c d) as [[?|?] ?]
         | |- context [faithfulness_evaluate_response ?a ?b ?c] =>
             destruct (faithfulness_evaluate_response a b c) as [[?|?] ?]
         | |- context [relevancy_evaluate_response ?a ?b ?c ?d] =>
             destruct (relevancy_evaluate_response a b c d) as [[?|?] ?]
         | |- context [embed_documents ?a ?b ?c] =>
             destruct (embed_documents a b c) as [[?|?] ?]
         | |- context [generate_questions_from_nodes ?a ?b ?c ?d] =>
             destruct (generate_questions_from_nodes a b c d) as [[?|?] ?]
         end; cbn.

Lemma eval_question_kept (qe : QueryEngine) (q : Question) (s : St) :
  kept s (snd (eval_question sv qe q s)) [(ix_chunk_size (qe_index qe), q)].
Proof.
  unfold kept, eval_question, bind, now, call, ret. cbn.
  run_services; unfold built, queried; rewrite ?omap_app; cbn;
    rewrite ?app_nil_r; repeat split; done.
Qed.

Lemma question_loop_measure_all (qe : QueryEngine) (qs : list Question) :
  forall (totals : Q * Z * Z) (s : St),
    question_loop sv qe qs totals s =
      match measure_all sv qe qs s with
      | (Ok ms, s') => (Ok (fold_left (add_measurement (arithmetic sv)) ms totals), s')
      | (Err e, s') => (Err e, s')
      end.
Proof.
  induction qs as [|q qs IH]; intros totals s; [done|].
  cbn [question_loop measure_all]. unfold bind at 1. unfold bind at 1.
  destruct (eval_question sv qe q s) as [[[[t f] r]|e] s1]; [|done].
  destruct totals as [[tt tf] tr]. rewrite IH. unfold bind, ret.
  destruct (measure_all sv qe qs s1) as [[ms|e] s2]; done.
Qed.

Lemma measure_all_kept (qe : QueryEngine) (qs : list Question) :
  forall (s : St) (ms : list (Q * bool * bool)) (s' : St),
    measure_all sv qe qs s = (Ok ms, s') ->
    length ms = length qs /\
    kept s s' (map (fun q => (ix_chunk_size (qe_index qe), q)) qs).
Proof.
  induction qs as [|q qs IH]; intros s ms s' Hrun.
  - injection Hrun as <- <-. split; [done | apply kept_refl].
  - cbn [measure_all] in Hrun. unfold bind at 1 in Hrun.
    pose proof (eval_question_kept qe q s) as Hq.
    destruct (eval_question sv qe q s) as [[m|e] s1]; [|done].
    unfold bind, ret in Hrun.
    destruct (measure_all sv qe qs s1) as [[ms'|e] s2] eqn:Hrest; [|done].
    injection Hrun as <- <-. destruct (IH _ _ _ Hrest) as [Hlen Hk].
    split; [cbn; by rewrite Hlen|]. apply (kept_trans _ _ _ [_] _ Hq Hk).
Qed.

Lemma measure_all_app (qe : QueryEngine) (qs1 : list Question) :
  forall (qs2 : list Question) (s : St) (ms : list (Q * bool * bool)) (s1 : St),
    measure_all sv qe qs1 s = (Ok ms, s1) ->
    measure_all sv qe (qs1 ++ qs2) s =
      match measure_all sv qe qs2 s1 with
      | (Ok ms2, s2) => (Ok (ms ++ ms2), s2)
      | (Err e, s2) => (Err e, s2)
      end.
Proof.
  induction qs1 as [|q qs1 IH]; intros qs2 s ms s1 Hrun.
  - injection Hrun as <- <-. cbn. by destruct (measure_all sv qe qs2 s) as [[?|?] ?].
  - cbn [measure_all app] in *. unfold bind at 1 in Hrun. unfold bind at 1.
    destruct (eval_question sv qe q s) as [[m|e] s0]; [|done].
    unfold bind, ret in *.
    destruct (measure_all sv qe qs1 s0) as [[ms1|e] s'] eqn:H1; [|done].
    injection Hrun as <- <-. rewrite (IH qs2 _ _ _ H1).
    by destruct (measure_all sv qe qs2 _) as [[?|?] ?].
Qed.

Lemma build_query_engine_run (docs : list Document) (c : Z) (s : St) :
  build_query_engine sv docs c s =
    let (r, w') := embed_documents sv (variant_index docs c) (world s) in
    (match r with
     | Ok _ => Ok {| qe_index := variant_index docs c; qe_llm := gpt_35_turbo;
                     similarity_top_k := 5 |}
     | Err e => Err e
     end,
     {| settings := variant_settings c; random_state := random_state s;
        world := w'; log := log s ++ [EvBuildIndex (variant_index docs c)] |}).
Proof.
  unfold build_query_engine, from_documents, as_query_engine, bind, set_settings,
    get_settings, call, ret. cbn.
  fold (variant_index docs c).
  by destruct (embed_documents sv (variant_index docs c) (world s)) as [[[]|e] w'].
Qed.

Lemma question_loop_kept (qe : QueryEngine) (qs : list Question) :
  forall (totals : Q * Z * Z) (s : St),
    let s' := snd (question_loop sv qe qs totals s) in
    settings s' = settings s /\ random_state s' = random_state s /\
    built (log s') = built (log s).
Proof.
  induction qs as [|q qs IH]; intros totals s; [done|].
  cbn [question_loop]. unfold bind.
  destruct (eval_question_kept qe q s) as (H1 & H2 & H3 & _).
  destruct (eval_question sv qe q s) as [[[[t f] r]|e] s1]; cbn in *; [|done].
  destruct totals as [[tt tf] tr].
  destruct (IH (fl_round (arithmetic sv) (tt + t)%Q, tf + bool_to_Z f,
                tr + bool_to_Z r) s1) as (K1 & K2 & K3).
  cbn in *. rewrite K1, K2, K3. done.
Qed.

Lemma evaluate_settings_and_index (docs : list Document) (c : Z)
    (qs : list Question) (s : St) (r : result (Q * Q * Q)) (s' : St) :
  evaluate_response_time_and_accuracy sv docs c qs s = (r, s') ->
  settings s' = variant_settings c /\
  random_state s' = random_state s /\
  built (log s') = built (log s) ++ [variant_index docs c].
Proof.
  unfold evaluate_response_time_and_accuracy, bind at 1.
  rewrite build_query_engine_run.
  destruct (embed_documents sv (variant_index docs c) (world s)) as [[[]|e] w'].
  2: { intros [= <- <-]. cbn. unfold built. by rewrite omap_app. }
  unfold bind at 1.
  match goal with
  | |- context [question_loop sv ?qe qs ?t ?s0] =>
      pose proof (question_loop_kept qe qs t s0) as (K1 & K2 & K3);
      destruct (question_loop sv qe qs t s0) as [[[[tt tf] tr]|e] s1]
  end; cbn in K1, K2, K3.
  2: { intros [= <- <-]. rewrite K1, K2, K3. unfold built. by rewrite omap_app. }
  assert (Hs : settings s1 = variant_settings c /\
               random_state s1 = random_state s /\
               built (log s1) = built (log s) ++ [variant_index docs c]).
  { rewrite K1, K2, K3. unfold built. by rewrite omap_app. }
  unfold bind, lift_result, ret.
  destruct (py_div (arithmetic sv) tt (length qs)); [|by intros [= <- <-]].
  destruct (py_div (arithmetic sv) (inject_Z tf) (length qs)); [|by intros [= <- <-]].
  destruct (py_div (arithmetic sv) (inject_Z tr) (length qs)); by intros [= <- <-].
Qed.

(** C9: the index of the variant with chunk size [c] is asked for with
    overlap [c / 5], rounded down, whatever the settings were before:
    25 for 128 and 51 for 256.  The overlap follows from the chunk size
    alone. *)
Theorem chunk_overlap_is_a_fifth (docs : list Document) (c : Z)
    (qs : list Question) (s : St) :
  let after c := snd (evaluate_response_time_and_accuracy sv docs c qs s) in
  built (log (after c)) =
    built (log s) ++
    [{| ix_documents := docs; ix_chunk_size := c; ix_chunk_overlap := c / 5 |}] /\
  chunk_overlap (settings (after c)) = c / 5 /\
  built (log (after 128)) =
    built (log s) ++
    [{| ix_documents := docs; ix_chunk_size := 128; ix_chunk_overlap := 25 |}] /\
  built (log (after 256)) =
    built (log s) ++
    [{| ix_documents := docs; ix_chunk_size := 256; ix_chunk_overlap := 51 |}].
Proof.
  assert (H : forall c',
             let s' := snd (evaluate_response_time_and_accuracy sv docs c' qs s) in
             built (log s') = built (log s) ++ [variant_index docs c'] /\
             settings s' = variant_settings c').
  { intros c'.
    destruct (evaluate_response_time_and_accuracy sv docs c' qs s) as [r s1] eqn:Hrun.
    destruct (evaluate_settings_and_index docs c' qs s r s1 Hrun) as (Hset & _ & Hbuilt).
    done. }
  cbn zeta. destruct (H c) as [Hb Hs], (H 128) as [Hb1 _], (H 256) as [Hb2 _].
  rewrite Hb, Hs, Hb1, Hb2. done.
Qed.

Lemma build_query_engine_ok (docs : list Document) (c : Z) (s : St)
    (qe : QueryEngine) (s0 : St) :
  build_query_engine sv docs c s = (Ok qe, s0) ->
  qe = {| qe_index := variant_index docs c; qe_llm := gpt_35_turbo;
          similarity_top_k := 5 |} /\
  settings s0 = variant_settings c /\
  random_state s0 = random_state s /\
  log s0 = log s ++ [EvBuildIndex (variant_index docs c)].
Proof.
  rewrite build_query_engine_run.
  destruct (embed_documents sv (variant_index docs c) (world s)) as [[[]|e] w'];
    intros [= <- <-]; done.
Qed.

(** C8 (as the code has it): every evaluation writes its own model, chunk
    size and overlap into the shared settings and asks for its own index
    with them, so the index of the second variant owes nothing to the
    first; the settings that the first variant left are overwritten, and
    differ afterwards whenever the two chunk sizes differ. *)
Theorem second_variant_overwrites_settings (docs : list Document) (c1 c2 : Z)
    (qs : list Question) (s : St) :
  c1 <> c2 ->
  let s1 := snd (evaluate_response_time_and_accuracy sv docs c1 qs s) in
  let s2 := snd (evaluate_response_time_and_accuracy sv docs c2 qs s1) in
  settings s1 = {| llm := gpt_35_turbo; chunk_size := c1; chunk_overlap := c1 / 5 |} /\
  settings s2 = {| llm := gpt_35_turbo; chunk_size := c2; chunk_overlap := c2 / 5 |} /\
  built (log s2) =
    built (log s) ++
    [{| ix_documents := docs; ix_chunk_size := c1; ix_chunk_overlap := c1 / 5 |};
     {| ix_documents := docs; ix_chunk_size := c2; ix_chunk_overlap := c2 / 5 |}] /\
  settings s2 <> settings s1.
Proof.
  intros Hne.
  destruct (evaluate_response_time_and_accuracy sv docs c1 qs s) as [r1 s1] eqn:H1.
  cbn [snd].
  destruct (evaluate_response_time_and_accuracy sv docs c2 qs s1) as [r2 s2] eqn:H2.
  cbn [snd].
  destruct (evaluate_settings_and_index _ _ _ _ _ _ H1) as (A1 & _ & A3).
  destruct (evaluate_settings_and_index _ _ _ _ _ _ H2) as (B1 & _ & B3).
  rewrite A1, B1, B3, A3, <- app_assoc. repeat split.
  intros [= Heq _]. by apply Hne.
Qed.

(** Sums and counts over the measurements. *)
Lemma passing_cons (b : bool) (l : list bool) :
  passing (b :: l) = bool_to_Z b + passing l.
Proof.
  unfold passing. destruct b.
  - rewrite filter_cons_True by done. cbn [length bool_to_Z]. lia.
  - rewrite filter_cons_False by done. cbn [bool_to_Z]. lia.
Qed.

Lemma passing_bounds (l : list bool) : 0 <= passing l <= Z.of_nat (length l).
Proof. unfold passing. pose proof (length_filter (fun b => b = true) l). lia. Qed.

Lemma fold_totals (fmt : FloatFormat) (ms : list (Q * bool * bool)) :
  forall (t : Q) (f r : Z),
    fold_left (add_measurement fmt) ms (t, f, r) =
      (accumulate fmt t (map elapsed_of ms),
       f + passing (map faithful_of ms), r + passing (map relevant_of ms)).
Proof.
  induction ms as [|[[e fb] rb] ms IH]; intros t f r.
  - cbn. by rewrite !Z.add_0_r.
  - cbn [fold_left add_measurement]. rewrite IH. cbn [map].
    rewrite !passing_cons. cbn [faithful_of relevant_of elapsed_of fst snd].
    unfold accumulate. cbn [fold_left]. by rewrite !Z.add_assoc.
Qed.

Lemma py_div_Ok (fmt : FloatFormat) (t : Q) (n : nat) (v : Q) :
  py_div fmt t n = Ok v ->
  n <> O /\ v = fl_round fmt (t / inject_Z (Z.of_nat n))%Q.
Proof. destruct n; [done|]. intros [= <-]. done. Qed.

Lemma rate_in_unit_interval (fmt : FloatFormat) (p : Z) (n : nat) :
  n <> O -> 0 <= p <= Z.of_nat n ->
  (0 <= fl_round fmt (inject_Z p / inject_Z (Z.of_nat n)) <= 1)%Q.
Proof.
  intros Hn [H0 H1].
  assert (Hpos : (0 < inject_Z (Z.of_nat n))%Q).
  { change 0%Q with (inject_Z 0). rewrite <- Zlt_Qlt. lia. }
  assert (Hq : (0 <= inject_Z p / inject_Z (Z.of_nat n) <= 1)%Q).
  { split.
    - apply Qle_shift_div_l; [done|]. rewrite Qmult_0_l.
      change 0%Q with (inject_Z 0). by rewrite <- Zle_Qle.
    - apply Qle_shift_div_r; [done|]. rewrite Qmult_1_l. by rewrite <- Zle_Qle. }
  destruct Hq as [Hlo Hhi]. split.
  - rewrite <- (fl_round_0 fmt). by apply fl_round_le.
  - rewrite <- (fl_round_1 fmt). by apply fl_round_le.
Qed.

(** C2 (as the code has it): the evaluation returns a summary only when
    there is at least one question and no call has raised, so that all [N]
    measurements of the run exist.  The mean latency is then the float
    quotient by [N] of the elapsed times added up in the order of the
    questions, every sum rounded; the faithfulness rate and the relevancy
    rate are the float quotients by [N] of the numbers of passing verdicts,
    and both lie between 0 and 1. *)
Theorem summary_is_mean_over_all_questions (docs : list Document) (c : Z)
    (qs : list Question) (s : St) (avg_t avg_f avg_r : Q) (s' : St) :
  evaluate_response_time_and_accuracy sv docs c qs s = (Ok (avg_t, avg_f, avg_r), s') ->
  let fmt := arithmetic sv in
  let N := inject_Z (Z.of_nat (length qs)) in
  exists (qe : QueryEngine) (s0 : St) (ms : list (Q * bool * bool)),
    qs <> [] /\
    build_query_engine sv docs c s = (Ok qe, s0) /\
    measure_all sv qe qs s0 = (Ok ms, s') /\
    length ms = length qs /\
    avg_t = fl_round fmt (accumulate fmt 0 (map elapsed_of ms) / N)%Q /\
    avg_f = fl_round fmt (inject_Z (passing (map faithful_of ms)) / N)%Q /\
    avg_r = fl_round fmt (inject_Z (passing (map relevant_of ms)) / N)%Q /\
    (0 <= avg_f <= 1)%Q /\
    (0 <= avg_r <= 1)%Q.
Proof.
  unfold evaluate_response_time_and_accuracy, bind at 1.
  destruct (build_query_engine sv docs c s) as [[qe|e] s0] eqn:Hb; [|done].
  unfold bind at 1. rewrite question_loop_measure_all.
  destruct (measure_all sv qe qs s0) as [[ms|e] s1] eqn:Hm; [|done].
  rewrite fold_totals, !Z.add_0_l. unfold bind, lift_result, ret.
  destruct (py_div (arithmetic sv) (accumulate (arithmetic sv) 0 (map elapsed_of ms))
              (length qs)) as [a|] eqn:E1; [|done].
  destruct (py_div (arithmetic sv) (inject_Z (passing (map faithful_of ms))) (length qs))
    as [b|] eqn:E2; [|done].
  destruct (py_div (arithmetic sv) (inject_Z (passing (map relevant_of ms))) (length qs))
    as [d|] eqn:E3; [|done].
  intros [= <- <- <- <-].
  apply py_div_Ok in E1 as [HN ->], E2 as [_ ->], E3 as [_ ->].
  destruct (measure_all_kept _ _ _ _ _ Hm) as [Hlen _].
  exists qe, s0, ms. split; [by intros ->|]. do 6 (split; [done|]).
  split; apply rate_in_unit_interval; try done.
  - pose proof (passing_bounds (map faithful_of ms)) as Hp.
    rewrite length_map, Hlen in Hp. done.
  - pose proof (passing_bounds (map relevant_of ms)) as Hp.
    rewrite length_map, Hlen in Hp. done.
Qed.

Lemma evaluate_raises_at (docs : list Document) (c : Z)
    (qs1 : list Question) (q : Question) (qs2 : list Question) (s : St)
    (qe : QueryEngine) (s0 : St) (ms : list (Q * bool * bool)) (s1 : St)
    (e : Exn) (s2 : St) :
  build_query_engine sv docs c s = (Ok qe, s0) ->
  measure_all sv qe qs1 s0 = (Ok ms, s1) ->
  eval_question sv qe q s1 = (Err e, s2) ->
  evaluate_response_time_and_accuracy sv docs c (qs1 ++ q :: qs2) s = (Err e, s2).
Proof.
  intros Hb Hm He.
  unfold evaluate_response_time_and_accuracy, bind at 1. rewrite Hb.
  unfold bind at 1. rewrite question_loop_measure_all.
  rewrite (measure_all_app _ _ _ _ _ _ Hm). cbn [measure_all].
  unfold bind at 1. by rewrite He.
Qed.


Lemma now_log (s : St) (r : result Q) (s' : St) :
  now sv s = (r, s') -> log s' = log s.
Proof. unfold now. destruct (time_time sv (world s)). by intros [= <- <-]. Qed.

Lemma call_log {A} (ev : Event) (f : W -> result A * W) (s : St)
    (r : result A) (s' : St) :
  call ev f s = (r, s') -> log s' = log s ++ [ev].
Proof. unfold call. destruct (f (world s)). by intros [= <- <-]. Qed.

Lemma eval_question_steps (qe : QueryEngine) (q : Question) (s1 : St)
    (t0 t1 : Q) (sa sb sc : St) (resp : Response) :
  now sv s1 = (Ok t0, sa) ->
  call (EvQuery qe q) (engine_query sv qe q) sa = (Ok resp, sb) ->
  now sv sb = (Ok t1, sc) ->
  eval_question sv qe q s1 =
    match call (EvFaithfulness resp) (faithfulness_evaluate_response sv resp) sc with
    | (Err e, sd) => (Err e, sd)
    | (Ok f, sd) =>
        match call (EvRelevancy q resp) (relevancy_evaluate_response sv q resp) sd with
        | (Err e, se) => (Err e, se)
        | (Ok r, se) => (Ok (fl_round (arithmetic sv) (t1 - t0)%Q, f, r), se)
        end
    end.
Proof.
  intros H0 Hq H1.
  unfold eval_question, bind at 1. rewrite H0. unfold bind at 1. rewrite Hq.
  unfold bind at 1. rewrite H1. unfold bind at 1.
  destruct (call (EvFaithfulness resp) (faithfulness_evaluate_response sv resp) sc)
    as [[f|e] sd]; [|done].
  unfold bind, ret.
  by destruct (call (EvRelevancy q resp) (relevancy_evaluate_response sv q resp) sd)
    as [[r|e] se].
Qed.

(** C4 (as the code has it): for a question whose query has answered, the
    faithfulness judge is called once.  When that call raises, the
    evaluation raises the same error and ends there: the trace of the
    question is the query and this one faithfulness call, with no second
    call and no relevancy call.  When it answers and the relevancy call
    raises, the evaluation raises that error, the trace of the question
    being the query and one call to each judge.  When both answer, the
    measurement of the question carries the two verdicts as the judges
    returned them, again after one call to each: the notebook does not
    read the responses of the judges itself and never calls one twice. *)
Theorem judge_error_is_raised_not_retried (docs : list Document) (c : Z)
    (qs1 : list Question) (q : Question) (qs2 : list Question) (s : St)
    (qe : QueryEngine) (s0 : St) (ms : list (Q * bool * bool)) (s1 : St)
    (t0 t1 : Q) (sa sb sc : St) (resp : Response) :
  build_query_engine sv docs c s = (Ok qe, s0) ->
  measure_all sv qe qs1 s0 = (Ok ms, s1) ->
  now sv s1 = (Ok t0, sa) ->
  call (EvQuery qe q) (engine_query sv qe q) sa = (Ok resp, sb) ->
  now sv sb = (Ok t1, sc) ->
  (forall (e : Exn) (sd : St),
      call (EvFaithfulness resp) (faithfulness_evaluate_response sv resp) sc
        = (Err e, sd) ->
      evaluate_response_time_and_accuracy sv docs c (qs1 ++ q :: qs2) s = (Err e, sd) /\
      log sd = log s1 ++ [EvQuery qe q; EvFaithfulness resp]) /\
  (forall (f : bool) (sd : St) (e : Exn) (se : St),
      call (EvFaithfulness resp) (faithfulness_evaluate_response sv resp) sc
        = (Ok f, sd) ->
      call (EvRelevancy q resp) (relevancy_evaluate_response sv q resp) sd
        = (Err e, se) ->
      evaluate_response_time_and_accuracy sv docs c (qs1 ++ q :: qs2) s = (Err e, se) /\
      log se = log s1 ++ [EvQuery qe q; EvFaithfulness resp; EvRelevancy q resp]) /\
  (forall (f : bool) (sd : St) (r : bool) (se : St),
      call (EvFaithfulness resp) (faithfulness_evaluate_response sv resp) sc
        = (Ok f, sd) ->
      call (EvRelevancy q resp) (relevancy_evaluate_response sv q resp) sd
        = (Ok r, se) ->
      eval_question sv qe q s1
        = (Ok (fl_round (arithmetic sv) (t1 - t0)%Q, f, r), se) /\
      log se = log s1 ++ [EvQuery qe q; EvFaithfulness resp; EvRelevancy q resp]).
Proof.
  intros Hb Hm H0 Hq H1.
  pose proof (now_log _ _ _ H0) as L0. pose proof (call_log _ _ _ _ _ Hq) as Lq.
  pose proof (now_log _ _ _ H1) as L1.
  pose proof (eval_question_steps qe q s1 t0 t1 sa sb sc resp H0 Hq H1) as Hstep.
  split; [|split].
  - intros e sd Hf. pose proof (call_log _ _ _ _ _ Hf) as Lf.
    rewrite Hf in Hstep. split.
    + by eapply evaluate_raises_at.
    + rewrite Lf, L1, Lq, L0, <- app_assoc. done.
  - intros f sd e se Hf Hr. pose proof (call_log _ _ _ _ _ Hf) as Lf.
    pose proof (call_log _ _ _ _ _ Hr) as Lr. rewrite Hf, Hr in Hstep. split.
    + by eapply evaluate_raises_at.
    + rewrite Lr, Lf, L1, Lq, L0, <- !app_assoc. done.
  - intros f sd r se Hf Hr. pose proof (call_log _ _ _ _ _ Hf) as Lf.
    pose proof (call_log _ _ _ _ _ Hr) as Lr. rewrite Hf, Hr in Hstep.
    split; [done|]. rewrite Lr, Lf, L1, Lq, L0, <- !app_assoc. done.
Qed.

(** ** Sampling *)

Lemma randbelow_lt (m : nat) (g : G) :
  (0 < m)%nat -> (fst (randbelow sv m g) < m)%nat.
Proof.
  intros Hm. unfold randbelow. destruct (random_bits sv g) as [r g'].
  cbn. apply Nat.mod_upper_bound. lia.
Qed.

Lemma swap_out_perm {A} (l : list A) :
  forall (j : nat) (x y : A), l !! j = Some x -> y :: l ≡ₚ x :: <[j := y]> l.
Proof.
  induction l as [|a l IH]; intros [|j] x y H; try done.
  - cbn in H. injection H as ->. apply perm_swap.
  - cbn in H. cbn. etrans; [apply perm_swap|].
    etrans; [apply perm_skip, (IH j x y H)|]. apply perm_swap.
Qed.

(** One draw takes [pool[j]] out of the live prefix of the pool. *)
Lemma sample_step_perm {A} (pool : list A) (m j : nat) (x last : A) :
  (j < S m)%nat -> pool !! j = Some x -> pool !! m = Some last ->
  take (S m) pool ≡ₚ x :: take m (<[j := last]> pool).
Proof.
  intros Hj Hx Hl. rewrite (take_S_r _ _ _ Hl).
  rewrite <- Permutation_cons_append.
  destruct (decide (j = m)) as [->|Hne].
  - rewrite take_insert_ge by done. by assert (x = last) as -> by congruence.
  - rewrite take_insert_lt by lia. apply swap_out_perm.
    rewrite lookup_take_lt by lia. done.
Qed.

Lemma sample_loop_spec {A} (k : nat) :
  forall (m : nat) (pool : list A) (g : G),
    (k <= m)%nat -> (m <= length pool)%nat ->
    exists (l : list A) (g' : G) (rest : list A),
      sample_loop sv pool m k g = (Ok l, g') /\
      length l = k /\
      take m pool ≡ₚ l ++ rest.
Proof.
  induction k as [|k IH]; intros m pool g Hk Hm.
  - by exists [], g, (take m pool).
  - destruct m as [|m]; [lia|]. cbn [sample_loop].
    pose proof (randbelow_lt (S m) g) as Hj.
    destruct (randbelow sv (S m) g) as [j g1]. cbn in Hj.
    replace (S m - 1)%nat with m by lia.
    destruct (lookup_lt_is_Some_2 pool j) as [x Hx]; [lia|].
    destruct (lookup_lt_is_Some_2 pool m) as [last Hl]; [lia|].
    rewrite Hx, Hl.
    destruct (IH m (<[j := last]> pool) g1) as (l & g2 & rest & Hrun & Hlen & Hperm);
      [lia | rewrite length_insert; lia |].
    rewrite Hrun. exists (x :: l), g2, rest. split; [done|]. split; [cbn; lia|].
    rewrite (sample_step_perm pool m j x last) by (done || lia).
    cbn. by rewrite Hperm.
Qed.

(** The positions drawn do not depend on what the pool holds. *)
Lemma sample_loop_fmap {A B} (f : A -> B) (k : nat) :
  forall (m : nat) (pool : list A) (g : G),
    sample_loop sv (f <$> pool) m k g =
      let (r, g') := sample_loop sv pool m k g in
      (match r with Ok l => Ok (f <$> l) | Err e => Err e end, g').
Proof.
  induction k as [|k IH]; intros m pool g; [done|]. cbn [sample_loop].
  destruct (randbelow sv m g) as [j g1]. rewrite !list_lookup_fmap.
  destruct (pool !! j) as [x|]; [|done].
  destruct (pool !! (m - 1)%nat) as [last|]; [|done]. cbn.
  rewrite <- list_fmap_insert, IH.
  by destruct (sample_loop sv (<[j := last]> pool) (m - 1) k g1) as [[l|e] g2].
Qed.

Lemma elem_of_enumerated {A} (pool : list A) (p : nat * A) :
  p ∈ zip (seq 0 (length pool)) pool -> pool !! fst p = Some (snd p).
Proof.
  intros Hin. apply list_elem_of_lookup in Hin as [i Hi].
  apply lookup_zip_with_Some in Hi as (a & b & -> & Ha & Hb).
  apply lookup_seq in Ha as [-> _]. done.
Qed.

Lemma random_sample_spec {A} (population : list A) (k : nat) (s : St) :
  (k <= length population)%nat ->
  exists (picks : list (nat * A)) (g' : G),
    random_sample sv population k s =
      (Ok (map snd picks),
       {| settings := settings s; random_state := g'; world := world s;
          log := log s |}) /\
    sample_loop sv population (length population) k (random_state s) =
      (Ok (map snd picks), g') /\
    length picks = k /\
    NoDup (map fst picks) /\
    Forall (fun p => population !! fst p = Some (snd p)) picks.
Proof.
  intros Hk. set (n := length population). set (P := zip (seq 0 n) population).
  assert (HlenP : length P = n).
  { unfold P. rewrite length_zip_with_l_eq; rewrite length_seq; done. }
  destruct (sample_loop_spec k n P (random_state s))
    as (picks & g' & rest & Hrun & Hlen & Hperm); [done | lia |].
  assert (Hpop : sample_loop sv population n k (random_state s)
                 = (Ok (map snd picks), g')).
  { pose proof (sample_loop_fmap snd k n P (random_state s)) as Hf.
    rewrite Hrun in Hf. unfold P in Hf at 1.
    rewrite snd_zip in Hf by (rewrite length_seq; done). done. }
  exists picks, g'. split; [|split; [done|split; [done|split]]].
  - unfold random_sample. fold n.
    destruct (Nat.ltb_spec n k) as [Hlt|_]; [lia|]. by rewrite Hpop.
  - rewrite take_ge in Hperm by lia.
    assert (Hnd : NoDup (fst <$> (picks ++ rest))).
    { rewrite <- Hperm. unfold P. rewrite fst_zip by (rewrite length_seq; done).
      apply NoDup_seq. }
    rewrite fmap_app in Hnd. by apply NoDup_app in Hnd as [Hnd _].
  - apply Forall_forall. intros p Hp. apply elem_of_enumerated.
    fold n. fold P. rewrite take_ge in Hperm by lia. rewrite Hperm.
    apply elem_of_app. by left.
Qed.

(** C6 (as the code has it): the sample is drawn without replacement, at
    pairwise distinct positions of the pool, from the state of the
    process-global random generator, which the draw advances; the call takes
    no seed.  The questions drawn are a function of the pool, of the sample
    size and of that state alone. *)
Theorem sample_uses_global_random_state (pool : list Question) (k : nat) (s : St) :
  (k <= length pool)%nat ->
  exists (picks : list (nat * Question)) (g' : G),
    random_sample sv pool k s =
      (Ok (map snd picks),
       {| settings := settings s; random_state := g'; world := world s;
          log := log s |}) /\
    length picks = k /\
    NoDup (map fst picks) /\
    Forall (fun p => pool !! fst p = Some (snd p)) picks /\
    (forall s2 : St, random_state s2 = random_state s ->
                     fst (random_sample sv pool k s2) = Ok (map snd picks)).
Proof.
  intros Hk.
  destruct (random_sample_spec pool k s Hk) as (picks & g' & Hrun & Hloop & Hlen & Hnd & Hin).
  exists picks, g'. do 4 (split; [done|]).
  intros s2 Hs2. unfold random_sample.
  destruct (Nat.ltb_spec (length pool) k) as [Hlt|_]; [lia|].
  by rewrite Hs2, Hloop.
Qed.

Lemma random_sample_ok {A} (population : list A) (k : nat) (s : St)
    (l : list A) (s' : St) :
  random_sample sv population k s = (Ok l, s') ->
  length l = k /\ settings s' = settings s /\ world s' = world s /\ log s' = log s.
Proof.
  intros Hrun.
  destruct (Nat.ltb_spec (length population) k) as [Hlt|Hge].
  - unfold random_sample in Hrun.
    destruct (Nat.ltb_spec (length population) k); [done | lia].
  - destruct (random_sample_spec population k s Hge)
      as (picks & g' & Hspec & _ & Hlen & _).
    rewrite Hspec in Hrun. injection Hrun as <- <-.
    by rewrite length_map.
Qed.

(** ** The whole notebook *)

Lemma evaluate_queried (docs : list Document) (c : Z) (qs : list Question)
    (s : St) (row : Q * Q * Q) (s' : St) :
  evaluate_response_time_and_accuracy sv docs c qs s = (Ok row, s') ->
  queried (log s') = queried (log s) ++ map (fun q => (c, q)) qs.
Proof.
  unfold evaluate_response_time_and_accuracy, bind at 1.
  destruct (build_query_engine sv docs c s) as [[qe|e] s0] eqn:Hb; [|done].
  unfold bind at 1. rewrite question_loop_measure_all.
  destruct (measure_all sv qe qs s0) as [[ms|e] s1] eqn:Hm; [|done].
  destruct (fold_left (add_measurement (arithmetic sv)) ms (0%Q, 0, 0)) as [[tt tf] tr].
  unfold bind, lift_result, ret.
  destruct (py_div (arithmetic sv) tt (length qs)); [|done].
  destruct (py_div (arithmetic sv) (inject_Z tf) (length qs)); [|done].
  destruct (py_div (arithmetic sv) (inject_Z tr) (length qs)); [|done].
  intros [= _ <-].
  destruct (build_query_engine_ok _ _ _ _ _ Hb) as (Hqe & _ & _ & Hlog).
  destruct (measure_all_kept _ _ _ _ _ Hm) as [_ (_ & _ & _ & Hq)].
  subst qe. cbn in Hq. rewrite Hq, Hlog. unfold queried at 1.
  rewrite omap_app. cbn. by rewrite app_nil_r.
Qed.

Lemma chunk_size_loop_queried (docs : list Document) (ks : list Question)
    (sizes : list Z) :
  forall (s : St) (rows : list (Z * (Q * Q * Q))) (s' : St),
    chunk_size_loop sv docs sizes ks s = (Ok rows, s') ->
    map fst rows = sizes /\
    queried (log s') =
      queried (log s) ++ flat_map (fun c => map (fun q => (c, q)) ks) sizes.
Proof.
  induction sizes as [|c sizes IH]; intros s rows s' Hrun.
  - injection Hrun as <- <-. by rewrite app_nil_r.
  - cbn [chunk_size_loop] in Hrun. unfold bind at 1 in Hrun.
    destruct (evaluate_response_time_and_accuracy sv docs c ks s)
      as [[row|e] s1] eqn:Hev; [|done].
    unfold bind, ret in Hrun.
    destruct (chunk_size_loop sv docs sizes ks s1) as [[rows'|e] s2] eqn:Hrest; [|done].
    injection Hrun as <- <-. destruct (IH _ _ _ Hrest) as [Hfst Hq].
    split; [cbn; by rewrite Hfst|].
    rewrite Hq, (evaluate_queried _ _ _ _ _ _ Hev). cbn. by rewrite app_assoc.
Qed.

(** Whatever the outcome, the questions sent are an initial part of the
    list, in order. *)
Lemma measure_all_sent (qe : QueryEngine) (qs : list Question) :
  forall s : St,
    exists n : nat,
      (n <= length qs)%nat /\
      queried (log (snd (measure_all sv qe qs s))) =
        queried (log s) ++ map (fun q => (ix_chunk_size (qe_index qe), q)) (take n qs).
Proof.
  induction qs as [|q qs IH]; intros s.
  - exists 0%nat. cbn. by rewrite app_nil_r.
  - cbn [measure_all]. unfold bind at 1.
    pose proof (eval_question_kept qe q s) as (_ & _ & _ & Hq).
    destruct (eval_question sv qe q s) as [[m|e] s1]; cbn [snd] in *.
    + destruct (IH s1) as (n & Hn & Hs). exists (S n). split; [cbn; lia|].
      unfold bind, ret.
      destruct (measure_all sv qe qs s1) as [[ms|e] s2]; cbn [snd] in *;
        rewrite Hs, Hq, <- app_assoc; done.
    + exists 1%nat. split; [cbn; lia|]. rewrite Hq. cbn. by rewrite take_0.
Qed.

Lemma evaluate_sent (docs : list Document) (c : Z) (qs : list Question) (s : St) :
  exists n : nat,
    (n <= length qs)%nat /\
    queried (log (snd (evaluate_response_time_and_accuracy sv docs c qs s))) =
      queried (log s) ++ map (fun q => (c, q)) (take n qs).
Proof.
  assert (Hb : queried (log s ++ [EvBuildIndex (variant_index docs c)])
               = queried (log s)).
  { unfold queried. rewrite omap_app. cbn. by rewrite app_nil_r. }
  unfold evaluate_response_time_and_accuracy, bind at 1.
  rewrite build_query_engine_run.
  destruct (embed_documents sv (variant_index docs c) (world s)) as [[[]|e] w'].
  2: { exists 0%nat. split; [lia|]. cbn [snd log]. rewrite Hb, take_0. cbn.
       by rewrite app_nil_r. }
  unfold bind at 1. rewrite question_loop_measure_all.
  match goal with
  | |- context [measure_all sv ?qe qs ?s0] =>
      destruct (measure_all_sent qe qs s0) as (n & Hn & Hs);
      destruct (measure_all sv qe qs s0) as [[ms|e] s1]
  end; cbn [snd log qe_index ix_chunk_size variant_index] in Hs;
    rewrite Hb in Hs; exists n; (split; [done|]); [|done].
  destruct (fold_left (add_measurement (arithmetic sv)) ms (0%Q, 0, 0)) as [[tt tf] tr].
  unfold bind, lift_result, ret.
  destruct (py_div (arithmetic sv) tt (length qs)); [|done].
  destruct (py_div (arithmetic sv) (inject_Z tf) (length qs)); [|done].
  by destruct (py_div (arithmetic sv) (inject_Z tr) (length qs)).
Qed.

Lemma chunk_size_loop_sent (docs : list Document) (ks : list Question)
    (sizes : list Z) :
  forall s : St,
    exists n : nat,
      queried (log (snd (chunk_size_loop sv docs sizes ks s))) =
        queried (log s) ++
        take n (flat_map (fun c => map (fun q => (c, q)) ks) sizes).
Proof.
  induction sizes as [|c sizes IH]; intros s.
  - exists 0%nat. cbn. by rewrite app_nil_r.
  - cbn [chunk_size_loop flat_map]. unfold bind at 1.
    destruct (evaluate_sent docs c ks s) as (n & Hn & Hs).
    destruct (evaluate_response_time_and_accuracy sv docs c ks s)
      as [[row|e] s1] eqn:Hev; cbn [snd] in *.
    + destruct (IH s1) as (n' & Hs').
      exists (length (map (fun q => (c, q)) ks) + n')%nat.
      rewrite take_app_add. unfold bind, ret.
      destruct (chunk_size_loop sv docs sizes ks s1) as [[rows|e] s2];
        cbn [snd] in *; rewrite Hs', (evaluate_queried _ _ _ _ _ _ Hev), <- app_assoc;
        done.
    + exists n. rewrite take_app_le by (rewrite length_map; lia).
      rewrite Hs. change (map ?f ?l) with (f <$> l). by rewrite fmap_take.
Qed.

(** C1: once the benchmark cell has drawn its sample, the sample has
    [num_eval_questions] = 25 questions, and the questions sent to the
    query engine are that sample, in its order, under chunk size 128 and
    then under chunk size 256: an initial part of this sequence if the run
    is cut short by an error, the whole of it if the run reaches its end.
    Nothing is drawn again between the variants. *)
Theorem frozen_question_set_is_reused (documents eval_documents : list Document)
    (s : St) (k_eval_questions : list Question) (s1 : St) :
  generate_benchmark sv documents s = (Ok (eval_documents, k_eval_questions), s1) ->
  let sent := flat_map (fun c => map (fun q => (c, q)) k_eval_questions) [128; 256] in
  length k_eval_questions = 25%nat /\
  (exists n : nat,
      queried (log (snd (notebook sv documents s))) = queried (log s) ++ take n sent) /\
  (forall (rows : list (Z * (Q * Q * Q))) (s' : St),
      notebook sv documents s = (Ok rows, s') ->
      map fst rows = [128; 256] /\
      queried (log s') = queried (log s) ++ sent).
Proof.
  intros Hgen sent.
  assert (Hks : length k_eval_questions = 25%nat /\ queried (log s1) = queried (log s)).
  { unfold generate_benchmark, bind at 1, get_settings in Hgen.
    unfold bind at 1 in Hgen.
    match type of Hgen with
    | context [call ?ev ?f s] =>
        pose proof (call_log ev f s) as Hlog; destruct (call ev f s) as [[pool|e] s0]
    end; [|done].
    specialize (Hlog _ _ eq_refl). unfold bind at 1 in Hgen.
    destruct (random_sample sv pool num_eval_questions s0) as [[l|e] s2] eqn:Hs; [|done].
    injection Hgen as <- <- <-.
    destruct (random_sample_ok _ _ _ _ _ Hs) as (Hlen & _ & _ & Hlog2).
    split; [done|]. rewrite Hlog2, Hlog. unfold queried at 1. rewrite omap_app. cbn.
    by rewrite app_nil_r. }
  destruct Hks as [Hlen Hq1]. split; [done|].
  unfold notebook, bind at 1. rewrite Hgen. unfold bind at 1, set_settings.
  unfold notebook, bind at 1. rewrite Hgen. unfold bind at 1.
  split.
  - match goal with
    | |- context [chunk_size_loop sv eval_documents chunk_sizes k_eval_questions ?s0] =>
        destruct (chunk_size_loop_sent eval_documents k_eval_questions chunk_sizes s0)
          as (n & Hn)
    end.
    exists n. rewrite Hn. cbn [log]. by rewrite Hq1.
  - intros rows s' Hloop.
    apply chunk_size_loop_queried in Hloop as [Hfst Hq]. cbn [log] in Hq.
    by rewrite Hq, Hq1.
Qed.

(** C7 (as the code has it): the sample size is compared with the number
    of generated candidate questions, inside [random.sample] and after the
    call that generates them.  With fewer candidates than the sample size
    the notebook raises [ValueError] and truncates nothing: the question
    generator has been called, but no index is built, no query is sent, no
    judge is called and the settings are left as they were.  With at least
    as many candidates the sample is drawn in full. *)
Theorem small_pool_raises_after_generation (documents : list Document) (s : St)
    (pool : list Question) (w' : W) :
  generate_questions_from_nodes sv (llm (settings s)) (take 20 documents) (world s)
    = (Ok pool, w') ->
  ((length pool < num_eval_questions)%nat ->
   notebook sv documents s =
     (Err ValueError,
      {| settings := settings s; random_state := random_state s; world := w';
         log := log s ++ [EvGenerateQuestions (llm (settings s)) (take 20 documents)] |})) /\
  ((num_eval_questions <= length pool)%nat ->
   exists (k_eval_questions : list Question) (s1 : St),
     generate_benchmark sv documents s
       = (Ok (take 20 documents, k_eval_questions), s1) /\
     length k_eval_questions = num_eval_questions).
Proof.
  intros Hgen. split.
  - intros Hlt.
    unfold notebook, bind at 1, generate_benchmark, bind at 1, get_settings.
    unfold bind at 1, call. rewrite Hgen. unfold bind at 1, random_sample.
    apply Nat.ltb_lt in Hlt. by rewrite Hlt.
  - intros Hge.
    unfold generate_benchmark, bind at 1, get_settings.
    unfold bind at 1, call. rewrite Hgen. unfold bind at 1.
    match goal with
    | |- context [random_sample sv pool num_eval_questions ?s0] =>
        destruct (random_sample_spec pool num_eval_questions s0 Hge)
          as (picks & g' & Hrun & _ & Hlen & _)
    end.
    rewrite Hrun. unfold ret. eexists _, _. split; [done|].
    by rewrite length_map.
Qed.

End NotebookProperties.

(** * The statements at concrete runs *)

Section Examples.

Import ChunkSizeEval.

Lemma frozen_question_set_is_reused_witness :
  let sent := flat_map (fun c => map (fun q => (c, q)) example_questions) [128; 256] in
  length example_questions = 25%nat /\
  (exists n : nat,
      queried (log (snd (notebook honest corpus (start 7))))
      = queried (log (start 7)) ++ take n sent) /\
  (forall (rows : list (Z * (Q * Q * Q))) (s' : State nat N),
      notebook honest corpus (start 7) = (Ok rows, s') ->
      map fst rows = [128; 256] /\
      queried (log s') = queried (log (start 7)) ++ sent).
Proof.
  apply (frozen_question_set_is_reused honest corpus (take 20 corpus) (start 7)
           example_questions (snd (generate_benchmark honest corpus (start 7)))).
  vm_compute. reflexivity.
Defined.

Lemma summary_is_mean_over_all_questions_witness :
  exists (qe : QueryEngine) (s0 : State nat N) (ms : list (Q * bool * bool)),
    three_questions <> [] /\
    build_query_engine rounded (take 20 corpus) 128 (start 7) = (Ok qe, s0) /\
    measure_all rounded qe three_questions s0
      = (Ok ms, snd (evaluate_response_time_and_accuracy rounded (take 20 corpus) 128
                       three_questions (start 7))) /\
    length ms = 3%nat /\
    (32 # 8)%Q = fl_round eighths (accumulate eighths 0 (map elapsed_of ms)
                                   / inject_Z (Z.of_nat 3))%Q /\
    (5 # 8)%Q = fl_round eighths (inject_Z (passing (map faithful_of ms))
                                  / inject_Z (Z.of_nat 3))%Q /\
    (2 # 8)%Q = fl_round eighths (inject_Z (passing (map relevant_of ms))
                                  / inject_Z (Z.of_nat 3))%Q /\
    (0 <= 5 # 8 <= 1)%Q /\
    (0 <= 2 # 8 <= 1)%Q.
Proof.
  apply (summary_is_mean_over_all_questions rounded (take 20 corpus) 128
           three_questions (start 7) (32 # 8)%Q (5 # 8)%Q (2 # 8)%Q
           (snd (evaluate_response_time_and_accuracy rounded (take 20 corpus) 128
                   three_questions (start 7)))).
  vm_compute. reflexivity.
Defined.


Lemma judge_error_is_raised_not_retried_witness :
  exists sd : State nat N,
    evaluate_response_time_and_accuracy judge_fails (take 20 corpus) 128
      (["A0?"] ++ "B0?" :: ["C0?"]) (start 7)
      = (Err (ServiceError "judge timed out"), sd) /\
    log sd =
      [EvBuildIndex (variant_index (take 20 corpus) 128);
       EvQuery example_engine "A0?"; EvFaithfulness (example_answer "A0?");
       EvRelevancy "A0?" (example_answer "A0?");
       EvQuery example_engine "B0?"; EvFaithfulness (example_answer "B0?")].
Proof.
  edestruct (judge_error_is_raised_not_retried judge_fails (take 20 corpus) 128
               ["A0?"] "B0?" ["C0?"] (start 7) example_engine) as (Hfaith & _ & _).
  - vm_compute. reflexivity.
  - vm_compute. reflexivity.
  - vm_compute. reflexivity.
  - vm_compute. reflexivity.
  - vm_compute. reflexivity.
  - eexists. apply Hfaith. vm_compute. reflexivity.
Defined.

Lemma sample_uses_global_random_state_witness :
  exists (picks : list (nat * Question)) (g' : N),
    random_sample honest (stub_questions 2 (take 20 corpus)) 25 (start 7) =
      (Ok (map snd picks),
       {| settings := settings (start 7); random_state := g';
          world := world (start 7); log := log (start 7) |}) /\
    length picks = 25%nat /\
    NoDup (map fst picks) /\
    Forall (fun p => stub_questions 2 (take 20 corpus) !! fst p = Some (snd p)) picks /\
    (forall s2 : State nat N,
        random_state s2 = random_state (start 7) ->
        fst (random_sample honest (stub_questions 2 (take 20 corpus)) 25 s2)
        = Ok (map snd picks)).
Proof.
  apply (sample_uses_global_random_state honest
           (stub_questions 2 (take 20 corpus)) 25 (start 7)).
  vm_compute. lia.
Defined.

Lemma small_pool_raises_after_generation_witness :
  notebook terse corpus (start 7) =
    (Err ValueError,
     {| settings := settings (start 7); random_state := random_state (start 7);
        world := 1%nat;
        log := log (start 7) ++
               [EvGenerateQuestions (llm (settings (start 7))) (take 20 corpus)] |}).
Proof.
  destruct (small_pool_raises_after_generation terse corpus (start 7)
              (stub_questions 1 (take 20 corpus)) 1%nat) as [Hsmall _].
  - reflexivity.
  - apply Hsmall. vm_compute. lia.
Defined.

Lemma second_variant_overwrites_settings_witness :
  let s1 := snd (evaluate_response_time_and_accuracy honest (take 20 corpus) 128
                   three_questions (start 7)) in
  let s2 := snd (evaluate_response_time_and_accuracy honest (take 20 corpus) 256
                   three_questions s1) in
  settings s1 = {| llm := gpt_35_turbo; chunk_size := 128; chunk_overlap := 128 / 5 |} /\
  settings s2 = {| llm := gpt_35_turbo; chunk_size := 256; chunk_overlap := 256 / 5 |} /\
  built (log s2) =
    built (log (start 7)) ++
    [{| ix_documents := take 20 corpus; ix_chunk_size := 128;
        ix_chunk_overlap := 128 / 5 |};
     {| ix_documents := take 20 corpus; ix_chunk_size := 256;
        ix_chunk_overlap := 256 / 5 |}] /\
  settings s2 <> settings s1.
Proof.
  apply (second_variant_overwrites_settings honest (take 20 corpus) 128 256
           three_questions (start 7)).
  lia.
Defined.

(** ** Where the code departs from the specification *)

(** C5: with a reranker that lists its results in reverse order, the
    comparator returns nothing ([None]); the pair of scores, in the order of
    the input, is what it prints. *)
Lemma compare_returns_nothing_counterexample :
  let run := ContextualHeaders.compare_chunk_similarities (ContextualHeaders.rigged 2) 1
               ["intro"; "emissions"] "Annual Report" "climate"
               ContextualHeaders.start in
  fst run = Ok tt /\
  ContextualHeaders.stdout (snd run) =
    [ContextualHeaders.LineHeader "Annual Report";
     ContextualHeaders.LineChunk "emissions";
     ContextualHeaders.LineQuery "climate";
     ContextualHeaders.LineWithout (1 # 10)%Q;
     ContextualHeaders.LineWith (2 # 10)%Q].
Proof. vm_compute. split; reflexivity. Qed.

(** C2: over three questions, when the query for the last one raises, no
    summary is returned at all, whatever its denominator; and when all calls
    answer and two verdicts of three pass, the rate returned by a format
    that holds eighths is five eighths, not two thirds. *)
Lemma summary_counterexample :
  (forall summary : Q * Q * Q,
      fst (evaluate_response_time_and_accuracy last_query_fails (take 20 corpus) 128
             three_questions (start 7)) <> Ok summary) /\
  fst (evaluate_response_time_and_accuracy rounded (take 20 corpus) 128
         three_questions (start 7)) = Ok ((32 # 8)%Q, (5 # 8)%Q, (2 # 8)%Q) /\
  ~ (5 # 8 == 2 # 3)%Q.
Proof.
  split; [|split].
  - intros summary H. vm_compute in H. discriminate H.
  - vm_compute. reflexivity.
  - intros H. vm_compute in H. discriminate H.
Qed.


(** C4: the faithfulness judge times out on the second question; it is
    called once for it, the evaluation ends with the error, and the third
    question is never reached. *)
Lemma judge_timeout_counterexample :
  let run := evaluate_response_time_and_accuracy judge_fails (take 20 corpus) 128
               three_questions (start 7) in
  fst run = Err (ServiceError "judge timed out") /\
  judged_faithfulness (log (snd run)) = [example_answer "A0?"; example_answer "B0?"] /\
  queried (log (snd run)) = [(128, "A0?"); (128, "B0?")].
Proof. vm_compute. repeat split; reflexivity. Qed.

(** C6: two runs on the same documents, with the same pool and the same
    sample size, that differ in nothing but the state of the global random
    generator, draw different question sets. *)
Lemma sample_depends_on_global_state_counterexample :
  settings (start 7) = settings (start 8) /\
  world (start 7) = world (start 8) /\
  log (start 7) = log (start 8) /\
  fst (generate_benchmark honest corpus (start 7))
  <> fst (generate_benchmark honest corpus (start 8)).
Proof.
  repeat split. intros H. vm_compute in H. discriminate H.
Qed.

(** C7: with 20 documents and one question generated for each, the sample
    of 25 fails, but only after the question generator has been called; with
    two questions generated for each of the 20 documents the sample of 25 is
    drawn and the notebook runs to its end. *)
Lemma small_pool_counterexample :
  fst (notebook terse (take 20 corpus) (start 7)) = Err ValueError /\
  log (snd (notebook terse (take 20 corpus) (start 7)))
    = [EvGenerateQuestions llm_default (take 20 corpus)] /\
  length (take 20 corpus) = 20%nat /\
  exists rows, fst (notebook honest (take 20 corpus) (start 7)) = Ok rows.
Proof.
  split; [|split; [|split]]; try (vm_compute; reflexivity).
  eexists. vm_compute. reflexivity.
Qed.

(** C8: after the variant with chunk size 256 has been evaluated, the
    shared settings are no longer those of the variant with chunk size
    128. *)
Lemma shared_settings_counterexample :
  let s1 := snd (evaluate_response_time_and_accuracy honest (take 20 corpus) 128
                   three_questions (start 7)) in
  let s2 := snd (evaluate_response_time_and_accuracy honest (take 20 corpus) 256
                   three_questions s1) in
  chunk_size (settings s1) = 128 /\
  chunk_size (settings s2) = 256 /\
  settings s2 <> settings s1.
Proof.
  vm_compute. repeat split. discriminate.
Qed.

End Examples.

(** * Further properties of the contextual-header comparator *)

Section ComparatorEdgeCases.

Import ContextualHeaders.

Context {W : Type} (sv : Services W).

Lemma py_index_wraps {A} (l : list A) (ix : Z) :
  - Z.of_nat (length l) <= ix < Z.of_nat (length l) ->
  exists i : nat, py_index l ix = Some i /\ (i < length l)%nat.
Proof.
  intros [Hlo Hhi]. unfold py_index.
  destruct (Z.leb_spec 0 ix) as [H0|H0].
  - apply Z.ltb_lt in Hhi as Hhi'. rewrite Hhi'. cbn.
    exists (Z.to_nat ix). split; [done | lia].
  - cbn. apply Z.leb_le in Hlo as Hlo'. rewrite Hlo'.
    apply Z.ltb_lt in H0 as H0'. rewrite H0'. cbn.
    exists (Z.to_nat (Z.of_nat (length l) + ix)). split; [done | lia].
Qed.

Lemma py_index_outside {A} (l : list A) (ix : Z) :
  ix < - Z.of_nat (length l) \/ Z.of_nat (length l) <= ix ->
  py_index l ix = None.
Proof.
  intros Hout. unfold py_index.
  destruct (Z.leb_spec 0 ix), (Z.ltb_spec ix (Z.of_nat (length l))),
    (Z.leb_spec (- Z.of_nat (length l)) ix), (Z.ltb_spec ix 0); cbn; try done; lia.
Qed.

Lemma list_setitem_Ok {A} (l : list A) (ix : Z) (v : A) (l' : list A) :
  list_setitem l ix v = Ok l' -> length l' = length l.
Proof.
  unfold list_setitem. destruct (py_index l ix); [|done].
  intros [= <-]. apply length_insert.
Qed.

Lemma list_setitem_Err {A} (l : list A) (ix : Z) (v : A) (e : Exn) :
  list_setitem l ix v = Err e -> e = IndexError.
Proof.
  unfold list_setitem. destruct (py_index l ix); [done|]. by intros [= <-].
Qed.

Lemma reorder_scores_wraps (rs : list RerankResult) :
  forall (k : nat) (scores sim : list Q),
    (forall j r, rs !! j = Some r -> is_Some (scores !! (k + j)%nat)) ->
    Forall (fun r => - Z.of_nat (length sim) <= index r < Z.of_nat (length sim)) rs ->
    exists out,
      reorder_scores (zip (seq k (length rs)) (map index rs)) scores sim = Ok out /\
      length out = length sim.
Proof.
  induction rs as [|r rs IH]; intros k scores sim Hsc Hrange; [by exists sim|].
  apply Forall_cons in Hrange as [Hr Hrange]. cbn [length seq map zip zip_with].
  cbn [reorder_scores].
  destruct (Hsc 0%nat r eq_refl) as [v Hv]. rewrite Nat.add_0_r in Hv. rewrite Hv.
  destruct (py_index_wraps sim (index r) Hr) as (i & Hi & _).
  unfold list_setitem. rewrite Hi.
  destruct (IH (S k) scores (<[i := v]> sim)) as (out & Hrun & Hlen).
  - intros j r' Hj. replace (S k + j)%nat with (k + S j)%nat by lia.
    by apply (Hsc (S j) r').
  - by rewrite length_insert.
  - exists out. rewrite length_insert in Hlen. done.
Qed.

Lemma reorder_scores_outside (rs : list RerankResult) :
  forall (k : nat) (scores sim : list Q),
    (forall j r, rs !! j = Some r -> is_Some (scores !! (k + j)%nat)) ->
    Exists (fun r => index r < - Z.of_nat (length sim) \/
                     Z.of_nat (length sim) <= index r) rs ->
    reorder_scores (zip (seq k (length rs)) (map index rs)) scores sim = Err IndexError.
Proof.
  induction rs as [|r rs IH]; intros k scores sim Hsc Hout.
  - by apply Exists_nil in Hout.
  - cbn [length seq map zip zip_with reorder_scores].
    destruct (Hsc 0%nat r eq_refl) as [v Hv]. rewrite Nat.add_0_r in Hv. rewrite Hv.
    destruct (list_setitem sim (index r) v) as [sim'|e] eqn:Hset.
    + apply Exists_cons in Hout as [Hhead|Htail].
      * unfold list_setitem in Hset. by rewrite (py_index_outside _ _ Hhead) in Hset.
      * apply list_setitem_Ok in Hset. apply IH.
        -- intros j r' Hj. replace (S k + j)%nat with (k + S j)%nat by lia.
           by apply (Hsc (S j) r').
        -- by rewrite Hset.
    + by rewrite (list_setitem_Err _ _ _ _ Hset).
Qed.

Lemma scores_enumerated (rs : list RerankResult) (j : nat) (r : RerankResult) :
  rs !! j = Some r -> map relevance_score rs !! (0 + j)%nat = Some (relevance_score r).
Proof.
  intros Hj. cbn. change (map relevance_score rs) with (relevance_score <$> rs).
  by rewrite list_lookup_fmap, Hj.
Qed.

(** X1: given an answer of the reranker, [rerank_documents] returns one
    score for each chunk when every result index lies in [[-len, len)]
    (a negative index counts from the end, as Python lists do), and raises
    [IndexError] as soon as one index lies outside; the rerank call has been
    made in both cases. *)
Theorem rerank_documents_index_range (query : string) (chunks : list string)
    (s : State W) (rs : list RerankResult) (w' : W) :
  client_rerank sv MODEL query chunks (world s) = (Ok rs, w') ->
  let n := Z.of_nat (length chunks) in
  let s_after := {| world := w'; calls := calls s ++ [(query, chunks)];
                    stdout := stdout s |} in
  (Forall (fun r => - n <= index r < n) rs ->
   exists scores,
     rerank_documents sv query chunks s = (Ok scores, s_after) /\
     length scores = length chunks) /\
  (Exists (fun r => index r < - n \/ n <= index r) rs ->
   rerank_documents sv query chunks s = (Err IndexError, s_after)).
Proof.
  intros Hcall n s_after.
  assert (Hsc : forall j r, rs !! j = Some r ->
                            is_Some (map relevance_score rs !! (0 + j)%nat)).
  { intros j r Hj. rewrite (scores_enumerated _ _ _ Hj). by eexists. }
  unfold rerank_documents, bind, rerank, lift_result, enumerate.
  rewrite Hcall, length_map. fold s_after. split.
  - intros Hin.
    destruct (reorder_scores_wraps rs 0 (map relevance_score rs)
                (replicate (length chunks) 0%Q) Hsc) as (out & Hrun & Hlen).
    + by rewrite length_replicate.
    + exists out. rewrite Hrun, Hlen, length_replicate. done.
  - intros Hout. rewrite (reorder_scores_outside rs 0 _ _ Hsc); [done|].
    by rewrite length_replicate.
Qed.

Lemma py_index_length {A B} (l : list A) (l' : list B) (ix : Z) :
  length l = length l' -> py_index l ix = py_index l' ix.
Proof. intros H. unfold py_index. by rewrite H. Qed.

(** Results that address other positions leave position [i] alone. *)
Lemma reorder_scores_untouched (rs : list RerankResult) :
  forall (k : nat) (scores sim : list Q) (i : nat),
    (forall j r, rs !! j = Some r -> scores !! (k + j)%nat = Some (relevance_score r)) ->
    Forall (fun r => - Z.of_nat (length sim) <= index r < Z.of_nat (length sim)) rs ->
    Forall (fun r => py_index sim (index r) <> Some i) rs ->
    exists out,
      reorder_scores (zip (seq k (length rs)) (map index rs)) scores sim = Ok out /\
      length out = length sim /\
      out !! i = sim !! i.
Proof.
  induction rs as [|r rs IH]; intros k scores sim i Hsc Hrange Hother; [by exists sim|].
  apply Forall_cons in Hrange as [Hr Hrange]. apply Forall_cons in Hother as [Hr' Hother].
  cbn [length seq map zip zip_with reorder_scores].
  specialize (Hsc 0%nat r eq_refl) as Hv. rewrite Nat.add_0_r in Hv. rewrite Hv.
  destruct (py_index_wraps sim (index r) Hr) as (j & Hj & Hlt).
  unfold list_setitem. rewrite Hj.
  assert (Hlen' : length (<[j := relevance_score r]> sim) = length sim)
    by apply length_insert.
  destruct (IH (S k) scores (<[j := relevance_score r]> sim) i)
    as (out & Hrun & Hlen & Hout).
  - intros j' r' Hj'. replace (S k + j')%nat with (k + S j')%nat by lia. by apply Hsc.
  - by rewrite Hlen'.
  - eapply Forall_impl; [exact Hother|]. intros r' Hne.
    by rewrite (py_index_length _ sim _ Hlen').
  - exists out. split; [done|]. split; [by rewrite Hlen, Hlen'|].
    rewrite Hout. apply list_lookup_insert_ne. intros ->. by apply Hr'.
Qed.

Lemma reorder_scores_last_wins (pre : list RerankResult) :
  forall (k : nat) (scores sim : list Q) (r : RerankResult)
         (post : list RerankResult) (i : nat),
    (forall j r', (pre ++ r :: post) !! j = Some r' ->
                  scores !! (k + j)%nat = Some (relevance_score r')) ->
    Forall (fun r' => - Z.of_nat (length sim) <= index r' < Z.of_nat (length sim))
           (pre ++ r :: post) ->
    py_index sim (index r) = Some i ->
    Forall (fun r' => py_index sim (index r') <> Some i) post ->
    exists out,
      reorder_scores (zip (seq k (length (pre ++ r :: post)))
                          (map index (pre ++ r :: post))) scores sim = Ok out /\
      length out = length sim /\
      out !! i = Some (relevance_score r).
Proof.
  induction pre as [|r0 pre IH]; intros k scores sim r post i Hsc Hrange Hi Hlast.
  - cbn [app] in *. apply Forall_cons in Hrange as [Hr Hrange].
    cbn [length seq map zip zip_with reorder_scores].
    specialize (Hsc 0%nat r eq_refl) as Hv. rewrite Nat.add_0_r in Hv. rewrite Hv.
    destruct (py_index_wraps sim (index r) Hr) as (i' & Hi' & Hlt).
    rewrite Hi in Hi'. injection Hi' as <-.
    unfold list_setitem. rewrite Hi.
    assert (Hlen' : length (<[i := relevance_score r]> sim) = length sim)
      by apply length_insert.
    destruct (reorder_scores_untouched post (S k) scores
                (<[i := relevance_score r]> sim) i) as (out & Hrun & Hlen & Hout).
    + intros j r' Hj. replace (S k + j)%nat with (k + S j)%nat by lia. by apply Hsc.
    + by rewrite Hlen'.
    + eapply Forall_impl; [exact Hlast|]. intros r' Hne.
      by rewrite (py_index_length _ sim _ Hlen').
    + exists out. split; [done|]. split; [by rewrite Hlen, Hlen'|].
      rewrite Hout. by apply list_lookup_insert_eq.
  - cbn [app] in *. apply Forall_cons in Hrange as [Hr0 Hrange].
    cbn [length seq map zip zip_with reorder_scores].
    specialize (Hsc 0%nat r0 eq_refl) as Hv. rewrite Nat.add_0_r in Hv. rewrite Hv.
    destruct (py_index_wraps sim (index r0) Hr0) as (j & Hj & Hlt).
    unfold list_setitem. rewrite Hj.
    assert (Hlen' : length (<[j := relevance_score r0]> sim) = length sim)
      by apply length_insert.
    destruct (IH (S k) scores (<[j := relevance_score r0]> sim) r post i)
      as (out & Hrun & Hlen & Hout).
    + intros j' r' Hj'. replace (S k + j')%nat with (k + S j')%nat by lia. by apply Hsc.
    + by rewrite Hlen'.
    + by rewrite (py_index_length _ sim _ Hlen').
    + eapply Forall_impl; [exact Hlast|]. intros r' Hne.
      by rewrite (py_index_length _ sim _ Hlen').
    + exists out. rewrite Hlen, Hlen'. done.
Qed.

(** X2: when every result index lies in [[-len, len)], the score that
    [rerank_documents] keeps at a position is the one of the last result
    that addresses this position, a negative index addressing the position
    counted from the end.  Among results that repeat an index, or that name
    one position by a negative and by a positive index, the last one wins. *)
Theorem rerank_documents_last_result_wins (query : string) (chunks : list string)
    (s : State W) (pre : list RerankResult) (r : RerankResult)
    (post : list RerankResult) (w' : W) (i : nat) :
  client_rerank sv MODEL query chunks (world s) = (Ok (pre ++ r :: post), w') ->
  Forall (fun r' => - Z.of_nat (length chunks) <= index r' < Z.of_nat (length chunks))
         (pre ++ r :: post) ->
  py_index chunks (index r) = Some i ->
  Forall (fun r' => py_index chunks (index r') <> Some i) post ->
  exists scores s',
    rerank_documents sv query chunks s = (Ok scores, s') /\
    length scores = length chunks /\
    scores !! i = Some (relevance_score r).
Proof.
  intros Hcall Hrange Hi Hlast.
  assert (Hlen0 : length chunks = length (replicate (length chunks) 0%Q))
    by (by rewrite length_replicate).
  destruct (reorder_scores_last_wins pre 0 (map relevance_score (pre ++ r :: post))
              (replicate (length chunks) 0%Q) r post i) as (out & Hrun & Hlen & Hout).
  - intros j r' Hj. by apply scores_enumerated.
  - by rewrite length_replicate.
  - by rewrite <- (py_index_length chunks _ _ Hlen0).
  - eapply Forall_impl; [exact Hlast|]. intros r' Hne.
    by rewrite <- (py_index_length chunks _ _ Hlen0).
  - unfold rerank_documents, bind, rerank, lift_result, enumerate.
    rewrite Hcall, length_map, Hrun. rewrite length_replicate in Hlen. eauto.
Qed.

(** X3: when the reranker raises, [compare_chunk_similarities] raises the
    same error after that one call and prints nothing. *)
Theorem compare_reranker_failure (chunk_index : Z) (chunks : list string)
    (document_title query : string) (s : State W) (chunk_text : string)
    (e : Exn) (w' : W) :
  list_getitem chunks chunk_index = Ok chunk_text ->
  client_rerank sv MODEL query
    [chunk_text; chunk_w_header document_title chunk_text] (world s) = (Err e, w') ->
  compare_chunk_similarities sv chunk_index chunks document_title query s =
    (Err e,
     {| world := w';
        calls := calls s ++
                 [(query, [chunk_text; chunk_w_header document_title chunk_text])];
        stdout := stdout s |}).
Proof.
  intros Hget Hcall.
  unfold compare_chunk_similarities, bind at 1, lift_result at 1. rewrite Hget.
  unfold bind at 1, rerank_documents, bind at 1, rerank. by rewrite Hcall.
Qed.

(** X4: a chunk index outside [[-len, len)] (any index at all when there
    are no chunks) makes [compare_chunk_similarities] raise [IndexError]
    before the reranker is called and before anything is printed. *)
Theorem compare_chunk_index_out_of_range (chunk_index : Z) (chunks : list string)
    (document_title query : string) (s : State W) :
  chunk_index < - Z.of_nat (length chunks) \/ Z.of_nat (length chunks) <= chunk_index ->
  compare_chunk_similarities sv chunk_index chunks document_title query s
  = (Err IndexError, s).
Proof.
  intros Hout.
  unfold compare_chunk_similarities, bind at 1, lift_result at 1, list_getitem.
  by rewrite (py_index_outside _ _ Hout).
Qed.

(** X5: when the reranker answers with results for some of the two
    candidates only, [compare_chunk_similarities] still prints both lines,
    and a candidate that is missing from the results is shown with score 0. *)
Theorem compare_missing_candidate_scores_zero (chunk_index : Z)
    (chunks : list string) (document_title query : string) (s : State W)
    (chunk_text : string) (rs : list RerankResult) (w' : W) :
  list_getitem chunks chunk_index = Ok chunk_text ->
  client_rerank sv MODEL query
    [chunk_text; chunk_w_header document_title chunk_text] (world s) = (Ok rs, w') ->
  Forall (fun r => 0 <= index r < 2) rs ->
  exists (a b : Q) (s' : State W),
    compare_chunk_similarities sv chunk_index chunks document_title query s = (Ok tt, s') /\
    stdout s' =
      stdout s ++ [LineHeader document_title; LineChunk chunk_text; LineQuery query;
                   LineWithout a; LineWith b] /\
    (~ In 0 (map index rs) -> a = 0%Q) /\
    (~ In 1 (map index rs) -> b = 0%Q).
Proof.
  intros Hget Hcall Hrange.
  destruct (rerank_documents_spec sv query _ s rs w' Hcall Hrange)
    as (scores & Hrun & Hlen & Habs & _).
  destruct scores as [|a [|b [|z scores]]]; try discriminate.
  exists a, b. eexists.
  unfold compare_chunk_similarities, bind at 1, lift_result at 1.
  rewrite Hget. unfold bind at 1. rewrite Hrun.
  unfold bind, print, lift_result.
  change (list_getitem [a; b] 0) with (Ok a).
  change (list_getitem [a; b] 1) with (Ok b).
  cbn. rewrite <- !app_assoc. split; [done|]. split; [done|]. split.
  - intros H0. specialize (Habs 0%nat). cbn in Habs.
    assert (Some a = Some 0%Q) as [= ->] by (apply Habs; [lia | done]). done.
  - intros H1. specialize (Habs 1%nat). cbn in Habs.
    assert (Some b = Some 0%Q) as [= ->] by (apply Habs; [lia | done]). done.
Qed.

End ComparatorEdgeCases.

(** * Further properties of the chunk-size evaluation *)

Section NotebookEdgeCases.

Import ChunkSizeEval.

Context {W G : Type} (sv : Services W G).

Local Abbreviation St := (State W G).

(** X6: a sample never invents or repeats anything: together with some
    questions left undrawn it is a rearrangement of the population, so no
    element is drawn more often than the population holds it. *)
Theorem sample_is_part_of_population {A} (population : list A) (k : nat) (s : St) :
  (k <= length population)%nat ->
  exists (l rest : list A) (s' : St),
    random_sample sv population k s = (Ok l, s') /\
    length l = k /\
    population ≡ₚ l ++ rest.
Proof.
  intros Hk.
  destruct (sample_loop_spec sv k (length population) population (random_state s))
    as (l & g' & rest & Hrun & Hlen & Hperm); [done | done |].
  rewrite take_ge in Hperm by done.
  exists l, rest. eexists. unfold random_sample.
  destruct (Nat.ltb_spec (length population) k) as [Hlt|_]; [lia|].
  rewrite Hrun. done.
Qed.

(** X7: a sample as large as the population is a permutation of it, and
    is always drawn. *)
Theorem full_sample_is_a_permutation {A} (population : list A) (s : St) :
  exists (l : list A) (s' : St),
    random_sample sv population (length population) s = (Ok l, s') /\
    l ≡ₚ population.
Proof.
  destruct (sample_loop_spec sv (length population) (length population) population
              (random_state s)) as (l & g' & rest & Hrun & Hlen & Hperm); [done | done |].
  rewrite take_ge in Hperm by done.
  exists l. eexists. unfold random_sample. rewrite Nat.ltb_irrefl, Hrun.
  split; [done|].
  apply Permutation_length in Hperm as Hl. rewrite length_app, Hlen in Hl.
  destruct rest; [|cbn in Hl; lia]. by rewrite app_nil_r in Hperm.
Qed.

(** X8: with no question at all, the evaluation still writes the settings
    and asks for the index, and then raises [ZeroDivisionError] when it
    divides by the number of questions. *)
Theorem evaluate_no_questions (docs : list Document) (c : Z) (s : St) (w' : W) :
  embed_documents sv (variant_index docs c) (world s) = (Ok tt, w') ->
  evaluate_response_time_and_accuracy sv docs c [] s =
    (Err ZeroDivisionError,
     {| settings := {| llm := gpt_35_turbo; chunk_size := c; chunk_overlap := c / 5 |};
        random_state := random_state s; world := w';
        log := log s ++ [EvBuildIndex (variant_index docs c)] |}).
Proof.
  intros Hembed. unfold evaluate_response_time_and_accuracy, bind at 1.
  rewrite build_query_engine_run, Hembed. done.
Qed.

(** X9: when the index cannot be built, the evaluation raises that error
    without sending any question or calling any judge; the shared settings
    have already been overwritten with those of the variant. *)
Theorem evaluate_index_build_failure (docs : list Document) (c : Z)
    (qs : list Question) (s : St) (e : Exn) (w' : W) :
  embed_documents sv (variant_index docs c) (world s) = (Err e, w') ->
  evaluate_response_time_and_accuracy sv docs c qs s =
    (Err e,
     {| settings := {| llm := gpt_35_turbo; chunk_size := c; chunk_overlap := c / 5 |};
        random_state := random_state s; world := w';
        log := log s ++ [EvBuildIndex (variant_index docs c)] |}).
Proof.
  intros Hembed. unfold evaluate_response_time_and_accuracy, bind at 1.
  rewrite build_query_engine_run, Hembed. done.
Qed.

Lemma eval_question_ok_log (qe : QueryEngine) (q : Question) (s : St)
    (m : Q * bool * bool) (s' : St) :
  eval_question sv qe q s = (Ok m, s') ->
  exists (t0 : Q) (w0 : W) (resp : Response) (w1 : W) (t1 : Q) (w2 : W)
         (f : bool) (w3 : W) (r : bool),
    time_time sv (world s) = (t0, w0) /\
    engine_query sv qe q w0 = (Ok resp, w1) /\
    time_time sv w1 = (t1, w2) /\
    faithfulness_evaluate_response sv resp w2 = (Ok f, w3) /\
    relevancy_evaluate_response sv q resp w3 = (Ok r, world s') /\
    m = (fl_round (arithmetic sv) (t1 - t0)%Q, f, r) /\
    log s' = log s ++ [EvQuery qe q; EvFaithfulness resp; EvRelevancy q resp].
Proof.
  unfold eval_question, bind, now, call, ret. cbn. intros H.
  destruct (time_time sv (world s)) as [t0 w0] eqn:E0. cbn in H.
  destruct (engine_query sv qe q w0) as [[resp|e] w1] eqn:E1; cbn in H; [|done].
  destruct (time_time sv w1) as [t1 w2] eqn:E2. cbn in H.
  destruct (faithfulness_evaluate_response sv resp w2) as [[f|e] w3] eqn:E3;
    cbn in H; [|done].
  destruct (relevancy_evaluate_response sv q resp w3) as [[r|e] w4] eqn:E4;
    cbn in H; [|done].
  injection H as <- <-. cbn.
  exists t0, w0, resp, w1, t1, w2, f, w3, r. rewrite <- !app_assoc. done.
Qed.

Lemma measure_all_ok_log (qe : QueryEngine) (qs : list Question) :
  forall (s : St) (ms : list (Q * bool * bool)) (s' : St),
    measure_all sv qe qs s = (Ok ms, s') ->
    exists resps : list Response,
      measured_in_turn sv qe qs (world s) ms resps (world s') /\
      log s' =
        log s ++
        flat_map (fun qr => [EvQuery qe (fst qr); EvFaithfulness (snd qr);
                             EvRelevancy (fst qr) (snd qr)]) (zip qs resps).
Proof.
  induction qs as [|q qs IH]; intros s ms s' Hrun.
  - injection Hrun as <- <-. exists []. split; [constructor | by rewrite app_nil_r].
  - cbn [measure_all] in Hrun. unfold bind at 1 in Hrun.
    destruct (eval_question sv qe q s) as [[m|e] s1] eqn:Hq; [|done].
    unfold bind, ret in Hrun.
    destruct (measure_all sv qe qs s1) as [[ms'|e] s2] eqn:Hrest; [|done].
    injection Hrun as <- <-.
    destruct (eval_question_ok_log _ _ _ _ _ Hq)
      as (t0 & w0 & resp & w1 & t1 & w2 & f & w3 & r & E0 & E1 & E2 & E3 & E4 & -> & Hlog).
    destruct (IH _ _ _ Hrest) as (resps & Hturn & Hlogs).
    exists (resp :: resps). split; [by econstructor|].
    rewrite Hlogs, Hlog, <- app_assoc. done.
Qed.

(** X10: in an evaluation that returns a summary, the questions are
    measured one after the other: the engine (gpt-3.5-turbo, the five
    nearest chunks, the index of the variant) answers the question, the
    faithfulness judge is given that answer and the relevancy judge the
    question and that same answer, each call in the world left by the call
    before.  The trace is the index build followed by these three calls for
    each question in order. *)
Theorem evaluation_trace (docs : list Document) (c : Z) (qs : list Question)
    (s : St) (row : Q * Q * Q) (s' : St) :
  evaluate_response_time_and_accuracy sv docs c qs s = (Ok row, s') ->
  let ix := {| ix_documents := docs; ix_chunk_size := c; ix_chunk_overlap := c / 5 |} in
  let qe := {| qe_index := ix; qe_llm := gpt_35_turbo; similarity_top_k := 5 |} in
  exists (w0 : W) (ms : list (Q * bool * bool)) (resps : list Response),
    embed_documents sv ix (world s) = (Ok tt, w0) /\
    measured_in_turn sv qe qs w0 ms resps (world s') /\
    log s' =
      log s ++
      EvBuildIndex ix ::
      flat_map (fun qr => [EvQuery qe (fst qr); EvFaithfulness (snd qr);
                           EvRelevancy (fst qr) (snd qr)]) (zip qs resps).
Proof.
  unfold evaluate_response_time_and_accuracy, bind at 1.
  rewrite build_query_engine_run. fold (variant_index docs c).
  destruct (embed_documents sv (variant_index docs c) (world s)) as [[[]|e] w0];
    [|done].
  unfold bind at 1. rewrite question_loop_measure_all.
  match goal with
  | |- context [measure_all sv ?qe qs ?s0] =>
      destruct (measure_all sv qe qs s0) as [[ms|e] s1] eqn:Hm
  end; [|done].
  destruct (fold_left (add_measurement (arithmetic sv)) ms (0%Q, 0, 0)) as [[tt tf] tr].
  unfold bind, lift_result, ret.
  destruct (py_div (arithmetic sv) tt (length qs)); [|done].
  destruct (py_div (arithmetic sv) (inject_Z tf) (length qs)); [|done].
  destruct (py_div (arithmetic sv) (inject_Z tr) (length qs)); [|done].
  intros [= _ <-].
  destruct (measure_all_ok_log _ _ _ _ _ Hm) as (resps & Hturn & Hlogs).
  exists w0, ms, resps. split; [done|]. split; [exact Hturn|].
  rewrite Hlogs. cbn [log]. rewrite <- app_assoc. done.
Qed.

Lemma evaluate_ok_rates (docs : list Document) (c : Z) (qs : list Question)
    (s : St) (avg_t avg_f avg_r : Q) (s' : St) :
  evaluate_response_time_and_accuracy sv docs c qs s = (Ok (avg_t, avg_f, avg_r), s') ->
  (0 <= avg_f <= 1)%Q /\ (0 <= avg_r <= 1)%Q.
Proof.
  unfold evaluate_response_time_and_accuracy, bind at 1.
  destruct (build_query_engine sv docs c s) as [[qe|e] s0] eqn:Hb; [|done].
  unfold bind at 1. rewrite question_loop_measure_all.
  destruct (measure_all sv qe qs s0) as [[ms|e] s1] eqn:Hm; [|done].
  rewrite fold_totals, !Z.add_0_l. unfold bind, lift_result, ret.
  destruct (py_div (arithmetic sv) (accumulate (arithmetic sv) 0 (map elapsed_of ms))
              (length qs)) as [a|] eqn:E1; [|done].
  destruct (py_div (arithmetic sv) (inject_Z (passing (map faithful_of ms))) (length qs))
    as [b|] eqn:E2; [|done].
  destruct (py_div (arithmetic sv) (inject_Z (passing (map relevant_of ms))) (length qs))
    as [d|] eqn:E3; [|done].
  intros [= <- <- <- <-].
  apply py_div_Ok in E2 as [HN ->], E3 as [_ ->].
  destruct (measure_all_kept sv _ _ _ _ _ Hm) as [Hlen _].
  split; apply rate_in_unit_interval; try done.
  - pose proof (passing_bounds (map faithful_of ms)) as Hp.
    rewrite length_map, Hlen in Hp. done.
  - pose proof (passing_bounds (map relevant_of ms)) as Hp.
    rewrite length_map, Hlen in Hp. done.
Qed.

Lemma chunk_size_loop_rows (docs : list Document) (ks : list Question)
    (sizes : list Z) :
  forall (s : St) (rows : list (Z * (Q * Q * Q))) (s' : St),
    chunk_size_loop sv docs sizes ks s = (Ok rows, s') ->
    length rows = length sizes /\
    Forall (fun row => (0 <= snd (fst (snd row)) <= 1)%Q /\
                       (0 <= snd (snd row) <= 1)%Q) rows /\
    built (log s') = built (log s) ++ map (variant_index docs) sizes /\
    (forall c, last sizes = Some c -> settings s' = variant_settings c).
Proof.
  induction sizes as [|c sizes IH]; intros s rows s' Hrun.
  - injection Hrun as <- <-. rewrite app_nil_r. repeat split; done.
  - cbn [chunk_size_loop] in Hrun. unfold bind at 1 in Hrun.
    destruct (evaluate_response_time_and_accuracy sv docs c ks s)
      as [[[[t f] r]|e] s1] eqn:Hev; [|done].
    unfold bind, ret in Hrun.
    destruct (chunk_size_loop sv docs sizes ks s1) as [[rows'|e] s2] eqn:Hrest; [|done].
    injection Hrun as <- <-.
    destruct (IH _ _ _ Hrest) as (Hlen & Hall & Hbuilt & Hset).
    destruct (evaluate_settings_and_index sv _ _ _ _ _ _ Hev) as (Hs1 & _ & Hb1).
    split; [cbn; by rewrite Hlen|]. split; [|split].
    + constructor; [|done]. cbn. by eapply evaluate_ok_rates.
    + rewrite Hbuilt, Hb1, <- app_assoc. done.
    + intros c' Hlast. destruct sizes as [|c2 sizes].
      * injection Hrest as _ <-. cbn in Hlast. by injection Hlast as <-.
      * apply Hset. by rewrite last_cons_cons in Hlast.
Qed.

Lemma generate_benchmark_ok (documents : list Document) (s : St)
    (docs : list Document) (ks : list Question) (s1 : St) :
  generate_benchmark sv documents s = (Ok (docs, ks), s1) ->
  docs = take 20 documents /\ built (log s1) = built (log s).
Proof.
  unfold generate_benchmark, bind at 1, get_settings. unfold bind at 1. intros Hgen.
  match type of Hgen with
  | context [call ?ev ?f s] =>
      pose proof (call_log ev f s) as Hlog; destruct (call ev f s) as [[pool|e] s0]
  end; [|done].
  specialize (Hlog _ _ eq_refl). unfold bind at 1 in Hgen.
  destruct (random_sample sv pool num_eval_questions s0) as [[l|e] s2] eqn:Hs; [|done].
  injection Hgen as <- <- <-.
  destruct (random_sample_ok sv _ _ _ _ _ Hs) as (_ & _ & _ & Hlog2).
  split; [done|]. rewrite Hlog2, Hlog. unfold built. rewrite omap_app. cbn.
  by rewrite app_nil_r.
Qed.

(** X11: a run of the notebook that reaches its end reports two rows, and
    in each of them the faithfulness rate and the relevancy rate lie
    between 0 and 1. *)
Theorem notebook_rows_are_rates (documents : list Document) (s : St)
    (rows : list (Z * (Q * Q * Q))) (s' : St) :
  notebook sv documents s = (Ok rows, s') ->
  length rows = 2%nat /\
  Forall (fun row => (0 <= snd (fst (snd row)) <= 1)%Q /\
                     (0 <= snd (snd row) <= 1)%Q) rows.
Proof.
  unfold notebook, bind at 1.
  destruct (generate_benchmark sv documents s) as [[[docs ks]|e] s1]; [|done].
  unfold bind at 1, set_settings. intros Hloop.
  apply chunk_size_loop_rows in Hloop as (Hlen & Hall & _). done.
Qed.

(** X12: a run of the notebook that reaches its end has built exactly two
    indexes, both over the first 20 documents only, with chunk size 128 and
    overlap 25 and then with chunk size 256 and overlap 51; it leaves the
    shared settings on gpt-3.5-turbo, 256 and 51, so the model that the
    evaluator cell had set is no longer the current one. *)
Theorem notebook_indexes_and_final_settings (documents : list Document) (s : St)
    (rows : list (Z * (Q * Q * Q))) (s' : St) :
  notebook sv documents s = (Ok rows, s') ->
  built (log s') =
    built (log s) ++
    [{| ix_documents := take 20 documents; ix_chunk_size := 128; ix_chunk_overlap := 25 |};
     {| ix_documents := take 20 documents; ix_chunk_size := 256; ix_chunk_overlap := 51 |}] /\
  settings s' = {| llm := gpt_35_turbo; chunk_size := 256; chunk_overlap := 51 |}.
Proof.
  unfold notebook, bind at 1.
  destruct (generate_benchmark sv documents s) as [[[docs ks]|e] s1] eqn:Hgen; [|done].
  unfold bind at 1, set_settings. intros Hloop.
  apply generate_benchmark_ok in Hgen as [-> Hb].
  apply chunk_size_loop_rows in Hloop as (_ & _ & Hbuilt & Hset).
  cbn [log] in Hbuilt. rewrite Hbuilt, Hb. split; [done|]. by apply Hset.
Qed.

(** X13: when question generation raises, the notebook raises the same
    error at once: nothing is sampled (the random generator is not
    advanced), the settings are not touched and no index is built. *)
Theorem notebook_generation_failure (documents : list Document) (s : St)
    (e : Exn) (w' : W) :
  generate_questions_from_nodes sv (llm (settings s)) (take 20 documents) (world s)
    = (Err e, w') ->
  notebook sv documents s =
    (Err e,
     {| settings := settings s; random_state := random_state s; world := w';
        log := log s ++ [EvGenerateQuestions (llm (settings s)) (take 20 documents)] |}).
Proof.
  intros Hgen.
  unfold notebook, bind at 1, generate_benchmark, bind at 1, get_settings.
  unfold bind at 1, call. by rewrite Hgen.
Qed.

(** X14: for a positive chunk size the overlap written to the settings is
    the chunk size divided by five, rounded down: it is never negative and
    always smaller than the chunk size. *)
Theorem overlap_stays_below_chunk_size (docs : list Document) (c : Z)
    (qs : list Question) (s : St) :
  0 < c ->
  let st := settings (snd (evaluate_response_time_and_accuracy sv docs c qs s)) in
  chunk_size st = c /\
  0 <= chunk_overlap st < chunk_size st /\
  5 * chunk_overlap st <= chunk_size st < 5 * chunk_overlap st + 5.
Proof.
  intros Hc.
  destruct (evaluate_response_time_and_accuracy sv docs c qs s) as [r s1] eqn:Hrun.
  destruct (evaluate_settings_and_index sv docs c qs s r s1 Hrun) as (Hset & _ & _).
  cbn. rewrite Hset. cbn.
  pose proof (Z.div_mod c 5 ltac:(lia)) as Hdm.
  pose proof (Z.mod_pos_bound c 5 ltac:(lia)) as Hmod.
  repeat split; lia.
Qed.

End NotebookEdgeCases.

(** * Properties of the document title *)

Section TitleProperties.

Import DocumentTitle.

Context {W : Type} (sv : Services W).

Lemma py_slice_to_nonneg {A} (l : list A) (stop : Z) :
  0 <= stop -> py_slice_to l stop = take (Z.to_nat stop) l.
Proof. intros H. unfold py_slice_to. apply Z.leb_le in H. by rewrite H. Qed.

(** X15: for a limit that is not negative, [truncate_content] decodes an
    initial part of the tokens of the text, and the count it returns is the
    number of tokens it kept, which never exceeds the limit. *)
Theorem truncate_content_keeps_a_prefix (content : string) (max_tokens : Z) :
  0 <= max_tokens ->
  exists kept : list Z,
    kept `prefix_of` token_encode sv content /\
    truncate_content sv content max_tokens
      = (token_decode sv kept, Z.of_nat (length kept)) /\
    Z.of_nat (length kept) <= max_tokens.
Proof.
  intros Hmax. exists (take (Z.to_nat max_tokens) (token_encode sv content)).
  split; [apply prefix_take|].
  unfold truncate_content. rewrite py_slice_to_nonneg by done.
  rewrite length_take. split; [f_equal|]; lia.
Qed.

(** X16: with a negative limit the slice drops that many tokens from the
    end instead, and the count returned is the negative limit itself, not
    the number of tokens kept. *)
Theorem truncate_content_negative_limit (content : string) (max_tokens : Z) :
  max_tokens < 0 ->
  let tokens := token_encode sv content in
  truncate_content sv content max_tokens =
    (token_decode sv (take (length tokens - Z.to_nat (- max_tokens)) tokens),
     max_tokens).
Proof.
  intros Hmax tokens. unfold truncate_content, py_slice_to. fold tokens.
  destruct (Z.leb_spec 0 max_tokens) as [?|_]; [lia|].
  f_equal; [do 2 f_equal|]; lia.
Qed.

(** X17: when the client cannot be made, [get_document_title] raises
    that error and sends no request, whatever the document. *)
Theorem get_document_title_without_client (document_text guidance : string)
    (s : State W) (e : Exn) (w1 : W) :
  openai_client sv (world s) = (Err e, w1) ->
  get_document_title sv document_text guidance s
  = (Err e, {| world := w1; requests := requests s |}).
Proof.
  intros Hclient. unfold get_document_title.
  destruct (truncate_content sv document_text MAX_CONTENT_TOKENS) as [text n].
  unfold make_llm_call, bind at 1, new_client. by rewrite Hclient.
Qed.

Lemma get_document_title_messages (document_text guidance : string) (s : State W)
    (w1 : W) :
  openai_client sv (world s) = (Ok tt, w1) ->
  let tokens := token_encode sv document_text in
  exists request : Request,
    requests (snd (get_document_title sv document_text guidance s))
      = requests s ++ [request] /\
    messages request =
      [ {| role := "user";
           content :=
             DOCUMENT_TITLE_PROMPT guidance
               (if 4000 <=? Z.of_nat (length tokens)
                then TRUNCATION_MESSAGE "3000" else ""%string)
               (token_decode sv (take 4000 tokens)) |} ].
Proof.
  intros Hclient tokens.
  unfold get_document_title, truncate_content, MAX_CONTENT_TOKENS.
  rewrite py_slice_to_nonneg by lia. fold tokens.
  assert (Hcmp : (4000 <=? Z.min (Z.of_nat (length tokens)) 4000)
                 = (4000 <=? Z.of_nat (length tokens))).
  { destruct (Z.leb_spec 4000 (Z.of_nat (length tokens))) as [H|H].
    - apply Z.leb_le. lia.
    - apply Z.leb_gt. lia. }
  rewrite Hcmp. change (Z.to_nat 4000) with 4000%nat.
  unfold make_llm_call, bind at 1, new_client. rewrite Hclient.
  unfold bind, create, ret. eexists.
  match goal with
  | |- context [chat_completions_create sv ?r ?w] =>
      destruct (chat_completions_create sv r w) as [[?|?] ?]
  end; cbn; done.
Qed.

(** X18: once the client is made, a document of exactly 4000 tokens, on a
    tokenizer that decodes it back unchanged, is sent in full and
    nevertheless with the notice that only its beginning is shown. *)
Theorem notice_at_exactly_the_limit (document_text guidance : string) (s : State W)
    (w1 : W) :
  openai_client sv (world s) = (Ok tt, w1) ->
  length (token_encode sv document_text) = 4000%nat ->
  token_decode sv (token_encode sv document_text) = document_text ->
  exists request : Request,
    requests (snd (get_document_title sv document_text guidance s))
      = requests s ++ [request] /\
    messages request =
      [ {| role := "user";
           content := DOCUMENT_TITLE_PROMPT guidance (TRUNCATION_MESSAGE "3000")
                        document_text |} ].
Proof.
  intros Hclient Hlen Hround.
  destruct (get_document_title_messages document_text guidance s w1 Hclient)
    as (request & Hreq & Hmsg).
  exists request. split; [done|]. rewrite Hmsg, Hlen.
  rewrite take_ge by lia. by rewrite Hround.
Qed.

(** X19: once the client is made, a document of fewer than 4000 tokens, on
    a tokenizer that decodes it back unchanged, is sent in full and without
    the notice. *)
Theorem short_document_is_sent_whole (document_text guidance : string) (s : State W)
    (w1 : W) :
  openai_client sv (world s) = (Ok tt, w1) ->
  (length (token_encode sv document_text) < 4000)%nat ->
  token_decode sv (token_encode sv document_text) = document_text ->
  exists request : Request,
    requests (snd (get_document_title sv document_text guidance s))
      = requests s ++ [request] /\
    messages request =
      [ {| role := "user";
           content := DOCUMENT_TITLE_PROMPT guidance "" document_text |} ].
Proof.
  intros Hclient Hlen Hround.
  destruct (get_document_title_messages document_text guidance s w1 Hclient)
    as (request & Hreq & Hmsg).
  exists request. split; [done|]. rewrite Hmsg.
  destruct (Z.leb_spec 4000 (Z.of_nat (length (token_encode sv document_text))))
    as [H|_]; [lia|].
  rewrite take_ge by lia. by rewrite Hround.
Qed.

End TitleProperties.

(** * The further properties at concrete runs *)

Section FurtherExamples.

Lemma rerank_documents_index_range_witness :
  ContextualHeaders.rerank_documents ContextualHeaders.one_based "climate" ["a"; "b"]
    ContextualHeaders.start
  = (Err IndexError,
     {| ContextualHeaders.world := 1%nat;
        ContextualHeaders.calls := [("climate"%string, ["a"; "b"]%string)];
        ContextualHeaders.stdout := [] |}).
Proof.
  destruct (rerank_documents_index_range ContextualHeaders.one_based "climate"
              ["a"; "b"] ContextualHeaders.start
              [ {| ContextualHeaders.index := 1;
                   ContextualHeaders.relevance_score := (1 # 10)%Q |};
                {| ContextualHeaders.index := 2;
                   ContextualHeaders.relevance_score := (2 # 10)%Q |} ] 1%nat)
    as [_ Hout].
  - reflexivity.
  - apply Hout. apply Exists_cons_tl, Exists_cons_hd. simpl. lia.
Defined.

Lemma rerank_documents_last_result_wins_witness :
  exists scores s',
    ContextualHeaders.rerank_documents ContextualHeaders.counts_from_end "climate"
      ["a"; "b"] ContextualHeaders.start = (Ok scores, s') /\
    length scores = 2%nat /\
    scores !! 1%nat = Some (1 # 10)%Q.
Proof.
  apply (rerank_documents_last_result_wins ContextualHeaders.counts_from_end "climate"
           ["a"; "b"] ContextualHeaders.start
           [ {| ContextualHeaders.index := -1;
                ContextualHeaders.relevance_score := (7 # 10)%Q |};
             {| ContextualHeaders.index := -1;
                ContextualHeaders.relevance_score := (3 # 10)%Q |} ]
           {| ContextualHeaders.index := 1;
              ContextualHeaders.relevance_score := (1 # 10)%Q |} [] 1%nat 1%nat).
  - reflexivity.
  - repeat constructor; simpl; lia.
  - reflexivity.
  - constructor.
Defined.

Lemma compare_reranker_failure_witness :
  ContextualHeaders.compare_chunk_similarities ContextualHeaders.unreachable 1
    ["intro"; "emissions"] "Annual Report" "climate" ContextualHeaders.start
  = (Err (ServiceError "connection refused"),
     {| ContextualHeaders.world := 1%nat;
        ContextualHeaders.calls :=
          [("climate"%string,
            ["emissions"%string;
             ContextualHeaders.chunk_w_header "Annual Report" "emissions"])];
        ContextualHeaders.stdout := [] |}).
Proof.
  apply (compare_reranker_failure ContextualHeaders.unreachable 1
           ["intro"; "emissions"] "Annual Report" "climate" ContextualHeaders.start
           "emissions" (ServiceError "connection refused") 1%nat).
  - reflexivity.
  - reflexivity.
Defined.

Lemma compare_chunk_index_out_of_range_witness :
  ContextualHeaders.compare_chunk_similarities (ContextualHeaders.rigged 2) 86
    ["intro"; "emissions"] "Annual Report" "climate" ContextualHeaders.start
  = (Err IndexError, ContextualHeaders.start).
Proof.
  apply (compare_chunk_index_out_of_range (ContextualHeaders.rigged 2) 86
           ["intro"; "emissions"] "Annual Report" "climate" ContextualHeaders.start).
  simpl. lia.
Defined.

Lemma compare_missing_candidate_scores_zero_witness :
  exists s',
    ContextualHeaders.compare_chunk_similarities (ContextualHeaders.rigged 1) 1
      ["intro"; "emissions"] "Annual Report" "climate" ContextualHeaders.start
    = (Ok tt, s') /\
    exists b,
      ContextualHeaders.stdout s' =
        [ContextualHeaders.LineHeader "Annual Report";
         ContextualHeaders.LineChunk "emissions";
         ContextualHeaders.LineQuery "climate";
         ContextualHeaders.LineWithout 0%Q;
         ContextualHeaders.LineWith b].
Proof.
  destruct (compare_missing_candidate_scores_zero (ContextualHeaders.rigged 1) 1
              ["intro"; "emissions"] "Annual Report" "climate"
              ContextualHeaders.start "emissions"
              [ {| ContextualHeaders.index := 1;
                   ContextualHeaders.relevance_score := (2 # 10)%Q |} ] 1%nat)
    as (a & b & s' & Hrun & Hout & Ha & _).
  - reflexivity.
  - reflexivity.
  - repeat constructor; simpl; lia.
  - exists s'. split; [exact Hrun|]. exists b. rewrite Hout, Ha; [reflexivity|].
    simpl. intros [H|[]]. discriminate H.
Defined.

Import ChunkSizeEval.

Lemma sample_is_part_of_population_witness :
  exists (l rest : list Question) (s' : State nat N),
    random_sample honest (stub_questions 2 (take 20 corpus)) 25 (start 7) = (Ok l, s') /\
    length l = 25%nat /\
    stub_questions 2 (take 20 corpus) ≡ₚ l ++ rest.
Proof.
  apply (sample_is_part_of_population honest (stub_questions 2 (take 20 corpus)) 25
           (start 7)).
  vm_compute. lia.
Defined.

Lemma evaluate_no_questions_witness :
  evaluate_response_time_and_accuracy honest (take 20 corpus) 128 [] (start 7) =
    (Err ZeroDivisionError,
     {| settings := {| llm := gpt_35_turbo; chunk_size := 128; chunk_overlap := 128 / 5 |};
        random_state := 7%N; world := 1%nat;
        log := [] ++ [EvBuildIndex (variant_index (take 20 corpus) 128)] |}).
Proof.
  apply (evaluate_no_questions honest (take 20 corpus) 128 (start 7) 1%nat).
  reflexivity.
Defined.

Lemma evaluate_index_build_failure_witness :
  evaluate_response_time_and_accuracy index_fails (take 20 corpus) 128
    three_questions (start 7) =
    (Err (ServiceError "embedding failed"),
     {| settings := {| llm := gpt_35_turbo; chunk_size := 128; chunk_overlap := 128 / 5 |};
        random_state := 7%N; world := 1%nat;
        log := [] ++ [EvBuildIndex (variant_index (take 20 corpus) 128)] |}).
Proof.
  apply (evaluate_index_build_failure index_fails (take 20 corpus) 128
           three_questions (start 7) (ServiceError "embedding failed") 1%nat).
  reflexivity.
Defined.

Lemma evaluation_trace_witness :
  exists (w0 : nat) (ms : list (Q * bool * bool)) (resps : list Response),
    embed_documents honest (variant_index (take 20 corpus) 128) (world (start 7))
      = (Ok tt, w0) /\
    measured_in_turn honest example_engine three_questions w0 ms resps
      (world (snd example_evaluation)) /\
    log (snd example_evaluation) =
      log (start 7) ++
      EvBuildIndex (variant_index (take 20 corpus) 128) ::
      flat_map (fun qr => [EvQuery example_engine (fst qr); EvFaithfulness (snd qr);
                           EvRelevancy (fst qr) (snd qr)])
               (zip three_questions resps).
Proof.
  apply (evaluation_trace honest (take 20 corpus) 128 three_questions (start 7)
           ((12 # 3)%Q, (2 # 3)%Q, (1 # 3)%Q) (snd example_evaluation)).
  vm_compute. reflexivity.
Defined.

Lemma notebook_rows_are_rates_witness :
  length example_rows = 2%nat /\
  Forall (fun row => (0 <= snd (fst (snd row)) <= 1)%Q /\
                     (0 <= snd (snd row) <= 1)%Q) example_rows.
Proof.
  apply (notebook_rows_are_rates honest corpus (start 7) example_rows
           (snd example_notebook)).
  vm_compute. reflexivity.
Defined.

Lemma notebook_indexes_and_final_settings_witness :
  built (log (snd example_notebook)) =
    built (log (start 7)) ++
    [{| ix_documents := take 20 corpus; ix_chunk_size := 128; ix_chunk_overlap := 25 |};
     {| ix_documents := take 20 corpus; ix_chunk_size := 256; ix_chunk_overlap := 51 |}] /\
  settings (snd example_notebook)
  = {| llm := gpt_35_turbo; chunk_size := 256; chunk_overlap := 51 |}.
Proof.
  apply (notebook_indexes_and_final_settings honest corpus (start 7) example_rows
           (snd example_notebook)).
  vm_compute. reflexivity.
Defined.

Lemma notebook_generation_failure_witness :
  notebook generation_fails corpus (start 7) =
    (Err (ServiceError "generation failed"),
     {| settings := settings (start 7); random_state := random_state (start 7);
        world := 1%nat;
        log := log (start 7) ++
               [EvGenerateQuestions (llm (settings (start 7))) (take 20 corpus)] |}).
Proof.
  apply (notebook_generation_failure generation_fails corpus (start 7)
           (ServiceError "generation failed") 1%nat).
  reflexivity.
Defined.

Lemma overlap_stays_below_chunk_size_witness :
  let st := settings (snd (evaluate_response_time_and_accuracy honest (take 20 corpus)
                             128 three_questions (start 7))) in
  chunk_size st = 128 /\
  0 <= chunk_overlap st < chunk_size st /\
  5 * chunk_overlap st <= chunk_size st < 5 * chunk_overlap st + 5.
Proof.
  apply (overlap_stays_below_chunk_size honest (take 20 corpus) 128 three_questions
           (start 7)).
  lia.
Defined.

Lemma truncate_content_keeps_a_prefix_witness :
  exists kept : list Z,
    kept `prefix_of` DocumentTitle.by_character "abc" /\
    DocumentTitle.truncate_content (DocumentTitle.titled false) "abc" 2
      = (DocumentTitle.from_characters kept, Z.of_nat (length kept)) /\
    Z.of_nat (length kept) <= 2.
Proof.
  apply (truncate_content_keeps_a_prefix (DocumentTitle.titled false) "abc" 2).
  lia.
Defined.

Lemma truncate_content_negative_limit_witness :
  DocumentTitle.truncate_content (DocumentTitle.titled false) "abc" (-1)
  = ("ab"%string, -1).
Proof.
  apply (truncate_content_negative_limit (DocumentTitle.titled false) "abc" (-1)).
  lia.
Defined.

Lemma get_document_title_without_client_witness :
  DocumentTitle.get_document_title DocumentTitle.no_api_key (DocumentTitle.letters 10) ""
    DocumentTitle.start
  = (Err (ServiceError "no api key"),
     {| DocumentTitle.world := O;
        DocumentTitle.requests := DocumentTitle.requests DocumentTitle.start |}).
Proof.
  apply (get_document_title_without_client DocumentTitle.no_api_key
           (DocumentTitle.letters 10) "" DocumentTitle.start
           (ServiceError "no api key") O).
  reflexivity.
Defined.

Lemma notice_at_exactly_the_limit_witness :
  exists request : DocumentTitle.Request,
    DocumentTitle.requests
      (snd (DocumentTitle.get_document_title (DocumentTitle.titled false)
              (DocumentTitle.letters 4000) "" DocumentTitle.start))
      = DocumentTitle.requests DocumentTitle.start ++ [request] /\
    DocumentTitle.messages request =
      [ {| DocumentTitle.role := "user";
           DocumentTitle.content :=
             DocumentTitle.DOCUMENT_TITLE_PROMPT ""
               (DocumentTitle.TRUNCATION_MESSAGE "3000") (DocumentTitle.letters 4000) |} ].
Proof.
  apply (notice_at_exactly_the_limit (DocumentTitle.titled false)
           (DocumentTitle.letters 4000) "" DocumentTitle.start O).
  - reflexivity.
  - vm_compute. reflexivity.
  - vm_compute. reflexivity.
Defined.

Lemma short_document_is_sent_whole_witness :
  exists request : DocumentTitle.Request,
    DocumentTitle.requests
      (snd (DocumentTitle.get_document_title (DocumentTitle.titled false)
              (DocumentTitle.letters 10) "" DocumentTitle.start))
      = DocumentTitle.requests DocumentTitle.start ++ [request] /\
    DocumentTitle.messages request =
      [ {| DocumentTitle.role := "user";
           DocumentTitle.content :=
             DocumentTitle.DOCUMENT_TITLE_PROMPT "" "" (DocumentTitle.letters 10) |} ].
Proof.
  apply (short_document_is_sent_whole (DocumentTitle.titled false)
           (DocumentTitle.letters 10) "" DocumentTitle.start O).
  - reflexivity.
  - vm_compute. lia.
  - vm_compute. reflexivity.
Defined.

End FurtherExamples.
